(** * pycall: the [CallFile] class of [pycall/callfile.py]

    A shallow embedding of [CallFile] (validation, rendering, local
    materialisation, local spooling, remote spooling over SFTP) and the
    properties of it that the design document states.

    The class talks to the operating system and to paramiko.  Both are
    modelled here as an explicit world: a read-only environment [env] that
    answers what the host decides (path resolution, the password database,
    which call is refused and with which exception) and a mutable [state]
    (local file tree, remote files, open handles, and the sequence of calls
    issued so far).  Every method is a function [state -> outcome * state],
    written in monadic style so that it reads like the Python text. *)

From Stdlib Require Import String Ascii ZArith List.
From stdpp Require Import base option gmap strings list.

Open Scope string_scope.
Open Scope Z_scope.

(** ** Python exceptions *)

(** The exception classes the module names, raises or catches.  Python 3
    naming is used: [IOError] and [os.error] are aliases of [OSError]. *)
Inductive exc : Type :=
  (* pycall.errors *)
  | ValidationError
  | NoUserError
  | NoUserPermissionError
  | InvalidTimeError
  | NoSpoolPermissionError
  | ParamikoError
  (* builtins *)
  | OSError
  | KeyError
  | AttributeError
  | OverflowError
  | ValueError
  | EOFError
  (* paramiko.ssh_exception *)
  | SSHException
  | AuthenticationException.

#[global] Instance exc_eq_dec : EqDecision exc.
Proof. solve_decision. Defined.

Definition IOError : exc := OSError.
Definition os_error : exc := OSError.

(** [isinstance e cls]: [e] is an instance of class [cls], i.e. of [cls]
    itself or of a subclass.  The only subclassing among the classes above
    is [AuthenticationException] under [SSHException]. *)
Definition isinstance (e cls : exc) : bool :=
  bool_decide (e = cls)
  || (bool_decide (e = AuthenticationException) && bool_decide (cls = SSHException)).

(** An [except (c1, c2, ...)] clause takes [e] when it is an instance of one
    of the listed classes. *)
Definition caught_by (classes : list exc) (e : exc) : bool :=
  existsb (isinstance e) classes.

(** ** Python values used by the class *)

(** A [str] is true when it is not empty. *)
Definition str_truthy (s : string) : bool :=
  match s with
  | EmptyString => false
  | String _ _ => true
  end.

(** An attribute that is [None] or a [str]. *)
Definition opt_truthy (o : option string) : bool :=
  match o with
  | None => false
  | Some s => str_truthy s
  end.

(** [archive] is [None] or a [bool]. *)
Definition archive_truthy (a : option bool) : bool :=
  match a with
  | Some true => true
  | _ => false
  end.

(** Modelled from the spec: class [Call] of module [.call] is not part of
    the sources; the design document gives a target entity two capabilities,
    [isValid() -> bool] and [render() -> sequence<string>]. *)
Record Call : Type := mkCall {
  call_is_valid : bool;
  call_render : list string
}.

(** What [self.call] may be: a [Call] instance or any other object. *)
Inductive py_call : Type :=
  | CallObj (c : Call)
  | OtherCallObj.

(** Modelled from the spec: classes [Action] and [Context] of module
    [.actions] are not part of the sources; the design document gives an
    action entity two recognised variants (application, context), each with
    [render() -> sequence<string>].  [is_valid] tests membership with
    [isinstance(_, Action)] and [isinstance(_, Context)]. *)
Inductive py_action : Type :=
  | ActionObj (lines : list string)
  | ContextObj (lines : list string)
  | OtherActionObj.

Definition isinstance_Call (c : py_call) : bool :=
  match c with CallObj _ => true | OtherCallObj => false end.

Definition isinstance_Action (a : py_action) : bool :=
  match a with ActionObj _ => true | _ => false end.

Definition isinstance_Context (a : py_action) : bool :=
  match a with ContextObj _ => true | _ => false end.

(** The [time] argument of [spool]: [None], a [datetime] (carrying what
    [mktime(time.timetuple())] evaluates to, [None] when [mktime] raises
    [OverflowError]), or some other object without a [timetuple] method. *)
Inductive py_time : Type :=
  | TimeNone
  | TimeDatetime (stamp : option Z)
  | TimeOther (truthy : bool).

Definition time_truthy (t : py_time) : bool :=
  match t with
  | TimeNone => false
  | TimeDatetime _ => true
  | TimeOther b => b
  end.

(** ** Paths *)

Definition NL : string := String "010"%char EmptyString.
Definition SLASH : ascii := "/"%char.

Fixpoint ends_with_slash (s : string) : bool :=
  match s with
  | EmptyString => false
  | String c EmptyString => bool_decide (c = SLASH)
  | String _ r => ends_with_slash r
  end.

Definition starts_with_slash (s : string) : bool :=
  match s with
  | String c _ => bool_decide (c = SLASH)
  | EmptyString => false
  end.

Fixpoint has_slash (s : string) : bool :=
  match s with
  | EmptyString => false
  | String c r => bool_decide (c = SLASH) || has_slash r
  end.

(** The string has an embedded NUL character. *)
Fixpoint has_nul (s : string) : bool :=
  match s with
  | EmptyString => false
  | String c r => bool_decide (c = "000"%char) || has_nul r
  end.

(** [Path(a) / Path(b)], which is [os.path.join(a, b)]. *)
Definition path_join (a b : string) : string :=
  if starts_with_slash b then b
  else if negb (str_truthy a) || ends_with_slash a then a +:+ b
  else a +:+ String SLASH b.

(** [os.path.basename]: what follows the last slash. *)
Fixpoint basename (s : string) : string :=
  match s with
  | EmptyString => EmptyString
  | String c r =>
      if has_slash r then basename r
      else if bool_decide (c = SLASH) then r else s
  end.

(** [os.path.dirname]: what precedes the last slash, without the slashes
    that end it, unless nothing but slashes is left. *)
Fixpoint upto_last_slash (s : string) : string :=
  match s with
  | EmptyString => EmptyString
  | String c r =>
      if has_slash r then String c (upto_last_slash r)
      else if bool_decide (c = SLASH) then String c EmptyString else EmptyString
  end.

Fixpoint all_slashes (s : string) : bool :=
  match s with
  | EmptyString => true
  | String c r => bool_decide (c = SLASH) && all_slashes r
  end.

Fixpoint rstrip_slashes (s : string) : string :=
  match s with
  | EmptyString => EmptyString
  | String c r => if all_slashes r && bool_decide (c = SLASH) then EmptyString
                  else String c (rstrip_slashes r)
  end.

Definition dirname (s : string) : string :=
  let head := upto_last_slash s in
  if all_slashes head then head else rstrip_slashes head.

(** ** The world *)

(** A regular file: its bytes, the owner last set on it by [chown] and the
    (atime, mtime) pair last passed for it to [utime]; [None] stands for
    what the file got without such a call (the creating process as owner,
    the times the kernel or a copy gave it). *)
Record file : Type := mkFile {
  f_data : string;
  f_owner : option (Z * Z);
  f_times : option (Z * Z)
}.

#[global] Instance file_eq_dec : EqDecision file.
Proof. solve_decision. Defined.

Inductive node : Type :=
  | Dir
  | File (f : file).

#[global] Instance node_eq_dec : EqDecision node.
Proof. solve_decision. Defined.

Definition empty_file : file := mkFile EmptyString None None.

(** Calls into the operating system that the host may refuse. *)
Inductive os_call : Type :=
  | SysMkstemp
  | SysOpen (p : string)
  | SysWrite (p : string)
  | SysChown (p : string) (uid gid : Z)
  | SysUtime (p : string) (t : Z)
  | SysMove (src dst : string)
  | SysCopyOpen (dst : string)
  | SysCopyData (src dst : string)
  | SysCopyStat (src dst : string)
  | SysUnlink (p : string).

(** How a paramiko session authenticates. *)
Inductive credential : Type :=
  | ByPassword (passwd : string)
  | ByKey (pkeypath : string).

(** Calls into paramiko that may fail. *)
Inductive net_call : Type :=
  | NetLoadKey (pkeypath : string)
  | NetTransport (host : string) (port : Z)
  | NetConnect (host usr : string) (cred : credential)
  | NetSftp (host : string)
  | NetPut (host localpath remotepath : string)
  | NetChown (host path : string) (uid gid : Z)
  | NetRename (host oldpath newpath : string).

(** Everything issued to the outside, in program order.  A call is recorded
    when it is attempted, before the host answers. *)
Inductive event : Type :=
  | EvOs (c : os_call)
  | EvNet (c : net_call)
  | EvCloseFile (p : string)
  | EvCloseSftp (host : string)
  | EvCloseTransport (host : string).

(** Handles a process holds open. *)
Inductive handle : Type :=
  | HFile (p : string)
  | HTransport (host : string)
  | HSftp (host : string).

#[global] Instance handle_eq_dec : EqDecision handle.
Proof. solve_decision. Defined.

(** The host as the program finds it. *)
Record env : Type := mkEnv {
  (** the name under which the kernel files the object a path denotes:
      absolute and normalised *)
  resolve : string -> string;
  (** the password database: [(pw_uid, pw_gid)] of an account, or [None] *)
  passwd_db : string -> option (Z * Z);
  (** [None]: the call goes through; [Some e]: it raises [e] *)
  os_fault : os_call -> option exc;
  net_fault : net_call -> option exc;
  (** the fresh path that [mkstemp(suffix='.call')] picks *)
  mkstemp_pick : string;
  (** how many characters a copy to this path has written when it fails
      midway *)
  copy_cut : string -> nat
}.

Record state : Type := mkState {
  nodes : gmap string node;              (* local file tree, by resolved path *)
  remote : gmap (string * string) file;  (* files on remote hosts, by (host, path) *)
  handles : list handle;                 (* open handles, most recent first *)
  log : list event                       (* calls issued, oldest first *)
}.

Definition set_nodes (n : gmap string node) (s : state) : state :=
  mkState n (remote s) (handles s) (log s).
Definition set_remote (r : gmap (string * string) file) (s : state) : state :=
  mkState (nodes s) r (handles s) (log s).
Definition set_handles (h : list handle) (s : state) : state :=
  mkState (nodes s) (remote s) h (log s).
Definition log_event (ev : event) (s : state) : state :=
  mkState (nodes s) (remote s) (handles s) (log s ++ [ev])%list.

(** Closing releases the most recent handle of that name. *)
Fixpoint release (h : handle) (hs : list handle) : list handle :=
  match hs with
  | [] => []
  | h' :: r => if bool_decide (h' = h) then r else h' :: release h r
  end.

(** ** Computations that may raise *)

Inductive outcome (A : Type) : Type :=
  | Return (a : A)
  | Raise (e : exc).
Arguments Return {A} a.
Arguments Raise {A} e.

Definition M (A : Type) : Type := state -> outcome A * state.

#[global] Instance M_ret : MRet M := fun A a s => (Return a, s).
#[global] Instance M_bind : MBind M := fun A B f m s =>
  match m s with
  | (Return a, s') => f a s'
  | (Raise e, s') => (Raise e, s')
  end.

Definition raise {A} (e : exc) : M A := fun s => (Raise e, s).

(** [try: body / except classes: raise e'] *)
Definition try_except_raise {A} (body : M A) (classes : list exc) (e' : exc) : M A :=
  fun s =>
    match body s with
    | (Return a, s') => (Return a, s')
    | (Raise e, s') => if caught_by classes e then (Raise e', s') else (Raise e, s')
    end.

Definition get_state : M state := fun s => (Return s, s).
Definition modify (f : state -> state) : M unit := fun s => (Return tt, f s).
Definition emit (ev : event) : M unit := modify (log_event ev).

(** Ask the host whether it lets the call through. *)
Definition check_fault (f : option exc) : M unit :=
  match f with
  | Some e => raise e
  | None => mret tt
  end.

(** ** The class *)

(** The attributes [__init__] assigns. *)
Record CallFile : Type := mkCallFile {
  call : py_call;
  action : py_action;
  archive : option bool;
  user : option string;
  spool_dir : string;
  filename : string;
  tempdir : string
}.

Definition DEFAULT_SPOOL_DIR : string := "/var/spool/asterisk/outgoing".

(** [Path(self.tempdir) / Path(self.filename)] *)
Definition work_path (cf : CallFile) : string :=
  path_join (tempdir cf) (filename cf).

(** [Path(self.spool_dir) / Path(self.filename)] *)
Definition spool_path (cf : CallFile) : string :=
  path_join (spool_dir cf) (filename cf).

Section Host.

Variable E : env.

(** *** Operating system *)

(** [Path.abspath] *)
Definition abspath (p : string) : string := resolve E p.

(** [Path.isdir] *)
Definition isdir (p : string) : M bool := fun s =>
  (Return (bool_decide (nodes s !! resolve E p = Some Dir)), s).

Definition put_node (p : string) (n : node) (s : state) : state :=
  set_nodes (<[resolve E p := n]> (nodes s)) s.

Definition hold_handle (h : handle) (s : state) : state :=
  set_handles (h :: handles s) s.

Definition drop_handle (h : handle) (s : state) : state :=
  set_handles (release h (handles s)) s.

(** [open(p, 'w')]: creates the file, or empties the one that is there. *)
Definition open_w (p : string) : M unit :=
  emit (EvOs (SysOpen p));;
  check_fault (os_fault E (SysOpen p));;
  s ← get_state;
  match nodes s !! resolve E p with
  | Some Dir => raise OSError
  | Some (File f) =>
      modify (put_node p (File (mkFile EmptyString (f_owner f) None)));;
      modify (hold_handle (HFile p))
  | None =>
      modify (put_node p (File empty_file));;
      modify (hold_handle (HFile p))
  end.

(** [f.write(data)] on the handle that [open_w p] gave. *)
Definition file_write (p data : string) : M unit :=
  emit (EvOs (SysWrite p));;
  check_fault (os_fault E (SysWrite p));;
  s ← get_state;
  match nodes s !! resolve E p with
  | Some (File f) =>
      modify (put_node p (File (mkFile (f_data f +:+ data) (f_owner f) (f_times f))))
  | _ => raise OSError
  end.

Definition file_close (p : string) : M unit :=
  emit (EvCloseFile p);;
  modify (drop_handle (HFile p)).

(** [with open(p, 'w') as f: body]: the handle is closed however [body]
    ends, and what [body] raised is raised again. *)
Definition with_open_w {A} (p : string) (body : M A) : M A := fun s =>
  match open_w p s with
  | (Raise e, s1) => (Raise e, s1)
  | (Return _, s1) =>
      match body s1 with
      | (r, s2) => (r, snd (file_close p s2))
      end
  end.

(** [tempfile.mkstemp]: a new empty file, returned open. *)
Definition mkstemp : M string :=
  emit (EvOs SysMkstemp);;
  check_fault (os_fault E SysMkstemp);;
  modify (put_node (mkstemp_pick E) (File empty_file));;
  modify (hold_handle (HFile (mkstemp_pick E)));;
  mret (mkstemp_pick E).

(** [pwd.getpwnam]: the entry of the account; when there is none,
    [ValueError] for a name with an embedded NUL character and [KeyError]
    otherwise.  No account name has a NUL character, so on a host as they
    are the order of the two tests does not show. *)
Definition getpwnam (name : string) : M (Z * Z) :=
  match passwd_db E name with
  | Some pw => mret pw
  | None => if has_nul name then raise ValueError else raise KeyError
  end.

(** [os.chown] *)
Definition chown (p : string) (uid gid : Z) : M unit :=
  emit (EvOs (SysChown p uid gid));;
  check_fault (os_fault E (SysChown p uid gid));;
  s ← get_state;
  match nodes s !! resolve E p with
  | Some (File f) => modify (put_node p (File (mkFile (f_data f) (Some (uid, gid)) (f_times f))))
  | Some Dir => mret tt
  | None => raise OSError
  end.

(** [os.utime(p, (t, t))] *)
Definition utime (p : string) (t : Z) : M unit :=
  emit (EvOs (SysUtime p t));;
  check_fault (os_fault E (SysUtime p t));;
  s ← get_state;
  match nodes s !! resolve E p with
  | Some (File f) => modify (put_node p (File (mkFile (f_data f) (f_owner f) (Some (t, t)))))
  | Some Dir => mret tt
  | None => raise OSError
  end.

(** [time.mktime(time.timetuple())] *)
Definition mktime_timetuple (t : py_time) : M Z :=
  match t with
  | TimeDatetime (Some z) => mret z
  | TimeDatetime None => raise OverflowError
  | _ => raise AttributeError
  end.

(** [shutil.copyfile(src, dst)]: refused when both paths name the same
    file; otherwise the destination is opened for writing (created, or
    emptied keeping its owner) and the bytes are copied.  A copy that fails
    midway leaves the destination with the bytes written so far.  The copy
    belongs to whom the destination belonged, or to the process. *)
Definition copyfile (src dst : string) : M unit :=
  s ← get_state;
  match nodes s !! resolve E src with
  | Some (File f) =>
      if bool_decide (resolve E src = resolve E dst) then raise OSError
      else
        emit (EvOs (SysCopyOpen dst));;
        check_fault (os_fault E (SysCopyOpen dst));;
        match nodes s !! resolve E dst with
        | Some Dir => raise OSError
        | other =>
            let owner := match other with
                         | Some (File g) => f_owner g
                         | _ => None
                         end in
            modify (put_node dst (File (mkFile EmptyString owner None)));;
            emit (EvOs (SysCopyData src dst));;
            match os_fault E (SysCopyData src dst) with
            | Some e =>
                modify (put_node dst
                          (File (mkFile (substring 0 (copy_cut E dst) (f_data f))
                                   owner None)));;
                raise e
            | None => modify (put_node dst (File (mkFile (f_data f) owner None)))
            end
        end
  | _ => raise OSError
  end.

(** [shutil.copystat(src, dst)]: the times of [src] are given to [dst]; the
    owner is not. *)
Definition copystat (src dst : string) : M unit :=
  emit (EvOs (SysCopyStat src dst));;
  check_fault (os_fault E (SysCopyStat src dst));;
  s ← get_state;
  match nodes s !! resolve E src, nodes s !! resolve E dst with
  | Some (File f), Some (File g) =>
      modify (put_node dst (File (mkFile (f_data g) (f_owner g) (f_times f))))
  | Some _, Some _ => mret tt
  | _, _ => raise OSError
  end.

(** [shutil.copy2(src, dst)]: into [dst] when it is a directory;
    [copyfile], then [copystat]. *)
Definition copy2 (src dst : string) : M unit :=
  s ← get_state;
  let dst := if bool_decide (nodes s !! resolve E dst = Some Dir)
             then path_join dst (basename src) else dst in
  copyfile src dst;;
  copystat src dst.

(** [os.unlink] *)
Definition unlink (p : string) : M unit :=
  emit (EvOs (SysUnlink p));;
  check_fault (os_fault E (SysUnlink p));;
  s ← get_state;
  modify (set_nodes (delete (resolve E p) (nodes s))).

(** [shutil.move(src, dst)].  When [dst] is a directory the object goes
    inside it under its own name, unless that name is taken (a directory
    moved onto itself is left alone).  The object is renamed with
    [os.rename], which replaces what was at the destination and keeps the
    object with its owner and times; [os_fault E (SysMove src dst)] is what
    that [os.rename] answers.  When it raises an [OSError] (another file
    system, no permission) a regular file is copied with [copy2] and the
    source is unlinked.  Copying a directory tree is left out: [spool]
    never moves one. *)
Definition move (src dst : string) : M unit :=
  emit (EvOs (SysMove src dst));;
  s ← get_state;
  let into := bool_decide (nodes s !! resolve E dst = Some Dir) in
  let real_dst := if into then path_join dst (basename src) else dst in
  if into && bool_decide (resolve E src = resolve E dst) then mret tt
  else if into && bool_decide (is_Some (nodes s !! resolve E real_dst)) then raise OSError
  else
    match nodes s !! resolve E src with
    | Some n =>
        match os_fault E (SysMove src dst) with
        | None =>
            modify (set_nodes (<[resolve E real_dst := n]> (delete (resolve E src) (nodes s))))
        | Some e =>
            if isinstance e OSError then
              match n with
              | File _ => copy2 src real_dst;; unlink src
              | Dir => raise e
              end
            else raise e
        end
    | None => raise OSError
    end.

(** *** paramiko *)

(** [paramiko.SSHClient()], [load_system_host_keys],
    [set_missing_host_key_policy] and the final [c.close()]: the client
    object is configured but never connected, so nothing reaches the
    network through it. *)
Definition SSHClient_new : M unit := mret tt.
Definition load_system_host_keys : M unit := mret tt.
Definition set_missing_host_key_policy_AutoAdd : M unit := mret tt.
Definition SSHClient_close : M unit := mret tt.

(** [paramiko.RSAKey.from_private_key_file(filename=p)] *)
Definition RSAKey_from_private_key_file (p : string) : M string :=
  emit (EvNet (NetLoadKey p));;
  check_fault (net_fault E (NetLoadKey p));;
  mret p.

(** [paramiko.Transport(host, 22)]: opens the socket. *)
Definition Transport_new (host : string) (port : Z) : M unit :=
  emit (EvNet (NetTransport host port));;
  check_fault (net_fault E (NetTransport host port));;
  modify (hold_handle (HTransport host)).

(** [t.connect(username=usr, password=...)] or [t.connect(username=usr, pkey=...)] *)
Definition Transport_connect (host usr : string) (cred : credential) : M unit :=
  emit (EvNet (NetConnect host usr cred));;
  check_fault (net_fault E (NetConnect host usr cred)).

(** [paramiko.SFTPClient.from_transport(t)]: opens the channel. *)
Definition SFTPClient_from_transport (host : string) : M unit :=
  emit (EvNet (NetSftp host));;
  check_fault (net_fault E (NetSftp host));;
  modify (hold_handle (HSftp host)).

(** [sftp.put(localpath, remotepath)] *)
Definition sftp_put (host localpath remotepath : string) : M unit :=
  emit (EvNet (NetPut host localpath remotepath));;
  check_fault (net_fault E (NetPut host localpath remotepath));;
  s ← get_state;
  match nodes s !! resolve E localpath with
  | Some (File f) =>
      modify (set_remote (<[(host, remotepath) := mkFile (f_data f) None None]> (remote s)))
  | _ => raise IOError
  end.

(** [sftp.chown(path, uid, gid)] *)
Definition sftp_chown (host path : string) (uid gid : Z) : M unit :=
  emit (EvNet (NetChown host path uid gid));;
  check_fault (net_fault E (NetChown host path uid gid));;
  s ← get_state;
  match remote s !! (host, path) with
  | Some f =>
      modify (set_remote (<[(host, path) := mkFile (f_data f) (Some (uid, gid)) (f_times f)]> (remote s)))
  | None => raise IOError
  end.

(** [sftp.rename(oldpath, newpath)]: the plain SFTP rename, which the
    server refuses when something is at [newpath] already. *)
Definition sftp_rename (host oldpath newpath : string) : M unit :=
  emit (EvNet (NetRename host oldpath newpath));;
  check_fault (net_fault E (NetRename host oldpath newpath));;
  s ← get_state;
  match remote s !! (host, oldpath) with
  | Some f =>
      if bool_decide (is_Some (remote s !! (host, newpath))) then raise IOError
      else
        modify (set_remote (<[(host, newpath) := f]> (delete (host, oldpath) (remote s))))
  | None => raise IOError
  end.

Definition sftp_close (host : string) : M unit :=
  emit (EvCloseSftp host);;
  modify (drop_handle (HSftp host)).

Definition Transport_close (host : string) : M unit :=
  emit (EvCloseTransport host);;
  modify (drop_handle (HTransport host)).

(** *** Methods of [CallFile] *)

(** [x or DEFAULT] for an argument that is [None] or a [str] *)
Definition or_default (x : option string) (d : string) : string :=
  match x with
  | Some s => if str_truthy s then s else d
  | None => d
  end.

(** [CallFile.__init__] *)
Definition CallFile_init (call0 : py_call) (action0 : py_action)
    (archive0 : option bool) (filename0 tempdir0 user0 spool_dir0 : option string)
    : M CallFile :=
  let sd := or_default spool_dir0 DEFAULT_SPOOL_DIR in
  if opt_truthy filename0 && opt_truthy tempdir0 then
    mret (mkCallFile call0 action0 archive0 user0 sd
            (default EmptyString filename0) (default EmptyString tempdir0))
  else
    f ← mkstemp;
    file_close f;;
    mret (mkCallFile call0 action0 archive0 user0 sd (basename f) (dirname f)).

(** [CallFile.is_valid] *)
Definition is_valid (cf : CallFile) : M bool :=
  if negb (isinstance_Call (call cf)) then mret false
  else if negb (isinstance_Action (action cf) || isinstance_Context (action cf)) then mret false
  else
    d ← (if str_truthy (spool_dir cf) then isdir (abspath (spool_dir cf)) else mret true);
    if str_truthy (spool_dir cf) && negb d then mret false
    else
      match call cf with
      | CallObj c => if negb (call_is_valid c) then mret false else mret true
      | OtherCallObj => raise AttributeError
      end.

(** [self.call.render()] and [self.action.render()] *)
Definition render_call (c : py_call) : M (list string) :=
  match c with
  | CallObj c => mret (call_render c)
  | OtherCallObj => raise AttributeError
  end.

Definition render_action (a : py_action) : M (list string) :=
  match a with
  | ActionObj l => mret l
  | ContextObj l => mret l
  | OtherActionObj => raise AttributeError
  end.

(** [CallFile.buildfile] *)
Definition buildfile (cf : CallFile) : M (list string) :=
  v ← is_valid cf;
  if negb v then raise ValidationError
  else
    let cf0 : list string := [] in
    r1 ← render_call (call cf);
    let cf1 := (cf0 ++ r1)%list in
    r2 ← render_action (action cf);
    let cf2 := (cf1 ++ r2)%list in
    let cf3 := if archive_truthy (archive cf) then (cf2 ++ ["Archive: yes"])%list else cf2 in
    mret cf3.

(** [CallFile.contents] *)
Definition contents (cf : CallFile) : M string :=
  l ← buildfile cf;
  mret (String.concat NL l).

(** [CallFile.writefile] *)
Definition writefile (cf : CallFile) : M unit :=
  with_open_w (work_path cf) (
    c ← contents cf;
    file_write (work_path cf) c).

(** The [if self.user:] block shared by [spool] and [remote_spool].  It
    assigns the local names [uid] and [gid]; the pair returned is their
    binding after the block. *)
Definition chown_to_user (cf : CallFile) (uid gid : Z) : M (Z * Z) :=
  if opt_truthy (user cf) then
    try_except_raise (
      pwd ← getpwnam (default EmptyString (user cf));
      let uid := fst pwd in
      let gid := snd pwd in
      try_except_raise (chown (work_path cf) uid gid) [os_error] NoUserPermissionError;;
      mret (uid, gid))
    [KeyError] NoUserError
  else mret (uid, gid).

(** [CallFile.spool] *)
Definition spool (cf : CallFile) (time : py_time) : M unit :=
  writefile cf;;
  (* [uid] and [gid] are local names of the block here: nothing is bound
     to them before it and nothing reads them after it *)
  chown_to_user cf 0 0;;
  (if time_truthy time then
     try_except_raise (
       t ← mktime_timetuple time;
       utime (work_path cf) t)
     [os_error; AttributeError; OverflowError; ValueError] InvalidTimeError
   else mret tt);;
  try_except_raise (move (work_path cf) (spool_path cf)) [IOError] NoSpoolPermissionError.

(** The statements both authentication branches of [remote_spool] share,
    from [paramiko.Transport(ipaddr, 22)] to [t.close()]. *)
Definition upload (cf : CallFile) (ipaddr usr : string) (cred : credential)
    (uid gid : Z) : M unit :=
  Transport_new ipaddr 22;;
  Transport_connect ipaddr usr cred;;
  SFTPClient_from_transport ipaddr;;
  sftp_put ipaddr (work_path cf) (work_path cf);;
  sftp_chown ipaddr (work_path cf) uid gid;;
  sftp_rename ipaddr (work_path cf) (spool_path cf);;
  sftp_close ipaddr;;
  Transport_close ipaddr.

(** [CallFile.remote_spool] *)
Definition remote_spool (cf : CallFile) (ipaddr usr : string) (uid gid : Z)
    (passwd pkeypath : option string) : M unit :=
  writefile cf;;
  ids ← chown_to_user cf uid gid;
  let uid := fst ids in
  let gid := snd ids in
  (if opt_truthy passwd then
     try_except_raise (
       SSHClient_new;;
       load_system_host_keys;;
       set_missing_host_key_policy_AutoAdd;;
       upload cf ipaddr usr (ByPassword (default EmptyString passwd)) uid gid;;
       SSHClient_close)
     [SSHException] ParamikoError
   else mret tt);;
  (if opt_truthy pkeypath then
     try_except_raise (
       pkey ← RSAKey_from_private_key_file (default EmptyString pkeypath);
       SSHClient_new;;
       load_system_host_keys;;
       upload cf ipaddr usr (ByKey pkey) uid gid;;
       SSHClient_close)
     [SSHException; IOError] ParamikoError
   else mret tt).

End Host.

(** ** Vocabulary of the design document *)

(** The definitions of this part follow the wording of the design document,
    not the code; the lemmas below relate the two. *)

(** The target is a [Call] that reports itself valid. *)
Definition call_ok (c : py_call) : bool :=
  match c with
  | CallObj c => call_is_valid c
  | OtherCallObj => false
  end.

(** The action is one of the two recognised variants. *)
Definition action_ok (a : py_action) : bool :=
  match a with
  | ActionObj _ | ContextObj _ => true
  | OtherActionObj => false
  end.

(** [p] names an existing directory. *)
Definition is_dir (E : env) (s : state) (p : string) : bool :=
  bool_decide (nodes s !! resolve E p = Some Dir).

(** The spool directory, if set, resolves to an existing directory. *)
Definition spool_dir_ok (E : env) (s : state) (cf : CallFile) : bool :=
  negb (str_truthy (spool_dir cf))
  || is_dir E s (abspath E (spool_dir cf)).

Definition valid_descriptor (E : env) (s : state) (cf : CallFile) : bool :=
  call_ok (call cf) && action_ok (action cf) && spool_dir_ok E s cf.

Definition rendered_call (c : py_call) : list string :=
  match c with
  | CallObj c => call_render c
  | OtherCallObj => []
  end.

Definition rendered_action (a : py_action) : list string :=
  match a with
  | ActionObj l | ContextObj l => l
  | OtherActionObj => []
  end.

Definition archive_line (cf : CallFile) : list string :=
  if archive_truthy (archive cf) then ["Archive: yes"] else [].

(** Target lines, then action lines, then the archive line if asked for. *)
Definition directives (cf : CallFile) : list string :=
  (rendered_call (call cf) ++ rendered_action (action cf) ++ archive_line cf)%list.

(** The directive lines joined with newlines. *)
Definition text (cf : CallFile) : string := String.concat NL (directives cf).

Definition user_name (cf : CallFile) : string := default EmptyString (user cf).

(** The host lets the work file be opened and written. *)
Definition write_permitted (E : env) (s : state) (cf : CallFile) : Prop :=
  os_fault E (SysOpen (work_path cf)) = None
  ∧ is_dir E s (work_path cf) = false
  ∧ os_fault E (SysWrite (work_path cf)) = None.

(** No owner is set, or the owner exists and the host lets the work file
    be given to it. *)
Definition chown_permitted (E : env) (cf : CallFile) : Prop :=
  opt_truthy (user cf) = false
  ∨ ∃ uid gid, passwd_db E (user_name cf) = Some (uid, gid)
               ∧ os_fault E (SysChown (work_path cf) uid gid) = None.

(** *** States along the pipeline *)

(** The owner a file keeps when [open(p, 'w')] empties it. *)
Definition kept_owner (E : env) (s : state) (p : string) : option (Z * Z) :=
  match nodes s !! resolve E p with
  | Some (File f) => f_owner f
  | _ => None
  end.

Definition ev_open (cf : CallFile) : event := EvOs (SysOpen (work_path cf)).
Definition ev_write (cf : CallFile) : event := EvOs (SysWrite (work_path cf)).
Definition ev_close (cf : CallFile) : event := EvCloseFile (work_path cf).

(** [s] once the work file was opened for writing, holds [data], and was
    closed again, [evs] being the calls that took. *)
Definition after_open (E : env) (cf : CallFile) (s : state)
    (data : string) (evs : list event) : state :=
  mkState
    (<[resolve E (work_path cf) :=
         File (mkFile data (kept_owner E s (work_path cf)) None)]> (nodes s))
    (remote s) (handles s) (log s ++ evs).

(** Materialized: the rendered text is in the work file. *)
Definition materialized (E : env) (cf : CallFile) (s : state) : state :=
  after_open E cf s (text cf) [ev_open cf; ev_write cf; ev_close cf].

(** The [chown] the owner block issues, if any. *)
Definition chown_calls (E : env) (cf : CallFile) : list event :=
  if opt_truthy (user cf) then
    match passwd_db E (user_name cf) with
    | Some (uid, gid) => [EvOs (SysChown (work_path cf) uid gid)]
    | None => []
    end
  else [].

(** The [utime] the time block issues, if any. *)
Definition utime_calls (cf : CallFile) (time : py_time) : list event :=
  match time with
  | TimeDatetime (Some t) => [EvOs (SysUtime (work_path cf) t)]
  | _ => []
  end.

(** The (atime, mtime) pair the time block sets, if any. *)
Definition stamped (time : py_time) : option (Z * Z) :=
  match time with
  | TimeDatetime (Some t) => Some (t, t)
  | _ => None
  end.

(** Ownership, then timestamps, then the move. *)
Definition spool_schedule (E : env) (cf : CallFile) (time : py_time) : list event :=
  (chown_calls E cf ++ utime_calls cf time
   ++ [EvOs (SysMove (work_path cf) (spool_path cf))])%list.


(** What the names [uid] and [gid] of [remote_spool] are bound to once the
    owner block has run without raising. *)
Definition local_ids (E : env) (cf : CallFile) (uid gid : Z) : Z * Z :=
  if opt_truthy (user cf) then default (uid, gid) (passwd_db E (user_name cf))
  else (uid, gid).

Definition staged_owner (E : env) (cf : CallFile) (s : state) : option (Z * Z) :=
  if opt_truthy (user cf) then
    match passwd_db E (user_name cf) with
    | Some ids => Some ids
    | None => kept_owner E s (work_path cf)
    end
  else kept_owner E s (work_path cf).

(** Materialized and, if an owner is set, handed to that owner. *)
Definition staged (E : env) (cf : CallFile) (s : state) : state :=
  mkState
    (<[resolve E (work_path cf) :=
         File (mkFile (text cf) (staged_owner E cf s) None)]> (nodes s))
    (remote s) (handles s)
    (log s ++ [ev_open cf; ev_write cf; ev_close cf] ++ chown_calls E cf).

(** The paramiko calls of the password branch, in program order. *)
Definition password_calls (cf : CallFile) (ipaddr usr passwd : string)
    (ids : Z * Z) : list net_call :=
  [ NetTransport ipaddr 22;
    NetConnect ipaddr usr (ByPassword passwd);
    NetSftp ipaddr;
    NetPut ipaddr (work_path cf) (work_path cf);
    NetChown ipaddr (work_path cf) ids.1 ids.2;
    NetRename ipaddr (work_path cf) (spool_path cf) ].

(** The exception of the first call of the list that the host fails. *)
Fixpoint first_fault (E : env) (calls : list net_call) : option exc :=
  match calls with
  | [] => None
  | c :: rest =>
      match net_fault E c with
      | Some e => Some e
      | None => first_fault E rest
      end
  end.

(** On the remote host nothing is at the spool path yet, and the spool
    path is not the work path: the SFTP rename is not refused. *)
Definition remote_target_free (cf : CallFile) (ipaddr : string) (s : state) : Prop :=
  spool_path cf ≠ work_path cf
  ∧ remote s !! (ipaddr, spool_path cf) = None.

(** ** Sample hosts and descriptors *)

Definition no_fault {A : Type} : A → option exc := λ _, None.

(** A host with one account, [asterisk], that refuses nothing. *)
Definition host0 : env :=
  mkEnv (λ p, p)
        (λ u, if bool_decide (u = "asterisk") then Some (1001, 1001) else None)
        no_fault no_fault "/tmp/tmpk3v9x1.call" (λ _, 0%nat).

(** The same host when 10.0.0.5 cannot be reached. *)
Definition host_unreachable : env :=
  mkEnv (λ p, p)
        (λ u, if bool_decide (u = "asterisk") then Some (1001, 1001) else None)
        no_fault
        (λ c, match c with
              | NetTransport _ _ => Some SSHException
              | _ => None
              end)
        "/tmp/tmpk3v9x1.call" (λ _, 0%nat).

(** The same host when the session is lost during the upload. *)
Definition host_drops_upload : env :=
  mkEnv (λ p, p)
        (λ u, if bool_decide (u = "asterisk") then Some (1001, 1001) else None)
        no_fault
        (λ c, match c with
              | NetPut _ _ _ => Some SSHException
              | _ => None
              end)
        "/tmp/tmpk3v9x1.call" (λ _, 0%nat).

(** A disk with [/tmp] and the default spool directory. *)
Definition disk0 : state :=
  mkState (<["/var/spool/asterisk/outgoing" := Dir]> (<["/tmp" := Dir]> ∅)) ∅ [] [].

(** The same disk with an older [/tmp/demo.call] on it. *)
Definition disk_old : state :=
  mkState (<["/tmp/demo.call" := File (mkFile "old" None None)]> (nodes disk0)) ∅ [] [].

(** The disk of [host0] when a directory sits where the spooled file is to go. *)
Definition disk_taken : state :=
  mkState (<["/var/spool/asterisk/outgoing/demo.call" := Dir]> (nodes disk0)) ∅ [] [].

Definition call0 : py_call :=
  CallObj (mkCall true ["Channel: SIP/5551234"]).

Definition action0 : py_action :=
  ActionObj ["Application: Playback"; "Data: hello-world"].

Definition cf_plain : CallFile :=
  mkCallFile call0 action0 None None DEFAULT_SPOOL_DIR "demo.call" "/tmp".

Definition cf_archived : CallFile :=
  mkCallFile call0 action0 (Some true) None DEFAULT_SPOOL_DIR "demo.call" "/tmp".

(** The target is not a [Call]. *)
Definition cf_bad_call : CallFile :=
  mkCallFile OtherCallObj action0 None None DEFAULT_SPOOL_DIR "demo.call" "/tmp".

(** The owner has no account on [host0]. *)
Definition cf_ghost : CallFile :=
  mkCallFile call0 action0 None (Some "ghost") DEFAULT_SPOOL_DIR "demo.call" "/tmp".


Definition cf_owned : CallFile :=
  mkCallFile call0 action0 None (Some "asterisk") DEFAULT_SPOOL_DIR "demo.call" "/tmp".

(** The spool directory exists on the remote side only. *)
Definition cf_remote_only : CallFile :=
  mkCallFile call0 action0 None None "/srv/pbx/outgoing" "demo.call" "/tmp".

(** Work directory and spool directory are the same directory. *)
Definition cf_in_place : CallFile :=
  mkCallFile call0 action0 None None DEFAULT_SPOOL_DIR "demo.call" DEFAULT_SPOOL_DIR.

(** ** Further vocabulary *)

(** [s'] differs from [s] on the local disk at most at the work file. *)
Definition same_elsewhere (E : env) (cf : CallFile) (s s' : state) : Prop :=
  ∀ k, k ≠ resolve E (work_path cf) → nodes s' !! k = nodes s !! k.

(** No time is given, or it is a [datetime] that [mktime] converts and the
    host lets [utime] apply. *)
Definition time_permitted (E : env) (cf : CallFile) (time : py_time) : Prop :=
  time_truthy time = false
  ∨ ∃ t, time = TimeDatetime (Some t)
         ∧ os_fault E (SysUtime (work_path cf) t) = None.

(** The time is a true object without [timetuple], or a [datetime] that
    [mktime] cannot convert, or [utime] raises something the [except]
    clause of [spool] lists. *)
Definition time_refused (E : env) (cf : CallFile) (time : py_time) : Prop :=
  time = TimeOther true
  ∨ time = TimeDatetime None
  ∨ ∃ t e, time = TimeDatetime (Some t)
           ∧ os_fault E (SysUtime (work_path cf) t) = Some e
           ∧ caught_by [os_error; AttributeError; OverflowError; ValueError] e = true.

(** The paramiko calls both branches share, in program order. *)
Definition upload_calls (cf : CallFile) (ipaddr usr : string) (cred : credential)
    (ids : Z * Z) : list net_call :=
  [ NetTransport ipaddr 22;
    NetConnect ipaddr usr cred;
    NetSftp ipaddr;
    NetPut ipaddr (work_path cf) (work_path cf);
    NetChown ipaddr (work_path cf) ids.1 ids.2;
    NetRename ipaddr (work_path cf) (spool_path cf) ].

(** The paramiko calls of the key branch, in program order. *)
Definition key_calls (cf : CallFile) (ipaddr usr pkeypath : string)
    (ids : Z * Z) : list net_call :=
  [ NetLoadKey pkeypath;
    NetTransport ipaddr 22;
    NetConnect ipaddr usr (ByKey pkeypath);
    NetSftp ipaddr;
    NetPut ipaddr (work_path cf) (work_path cf);
    NetChown ipaddr (work_path cf) ids.1 ids.2;
    NetRename ipaddr (work_path cf) (spool_path cf) ].

(** The calls of the list up to and including the first the host fails. *)
Fixpoint attempted (E : env) (calls : list net_call) : list net_call :=
  match calls with
  | [] => []
  | c :: rest =>
      match net_fault E c with
      | Some _ => [c]
      | None => c :: attempted E rest
      end
  end.

(** [sftp.close()] then [t.close()]. *)
Definition closes (ipaddr : string) : list event :=
  [EvCloseSftp ipaddr; EvCloseTransport ipaddr].

Definition is_net_event (ev : event) : bool :=
  match ev with
  | EvNet _ | EvCloseSftp _ | EvCloseTransport _ => true
  | _ => false
  end.

(** The remote files once the upload was chowned and renamed. *)
Definition delivered (cf : CallFile) (ipaddr : string) (ids : Z * Z)
    (r : gmap (string * string) file) : gmap (string * string) file :=
  <[(ipaddr, spool_path cf) := mkFile (text cf) (Some ids) None]>
    (delete (ipaddr, work_path cf) r).

(** The handles an upload leaves open when one of its calls raises. *)
Definition leaked (E : env) (ipaddr usr : string) (cred : credential) : list handle :=
  match net_fault E (NetTransport ipaddr 22) with
  | Some _ => []
  | None =>
      match net_fault E (NetConnect ipaddr usr cred), net_fault E (NetSftp ipaddr) with
      | None, None => [HSftp ipaddr; HTransport ipaddr]
      | _, _ => [HTransport ipaddr]
      end
  end.

(** Dispatched: the prepared file sits at the spool path. *)
Definition spooled (E : env) (cf : CallFile) (time : py_time) (s : state) : state :=
  mkState
    (<[resolve E (spool_path cf) :=
         File (mkFile (text cf) (staged_owner E cf s) (stamped time))]>
       (delete (resolve E (work_path cf)) (nodes s)))
    (remote s) (handles s)
    (log s ++ [ev_open cf; ev_write cf; ev_close cf] ++ spool_schedule E cf time).

(** Prepared: staged and, if a time is given, stamped with it. *)
Definition prepared (E : env) (cf : CallFile) (time : py_time) (s : state) : state :=
  mkState
    (<[resolve E (work_path cf) :=
         File (mkFile (text cf) (staged_owner E cf s) (stamped time))]> (nodes s))
    (remote s) (handles s)
    (log s ++ [ev_open cf; ev_write cf; ev_close cf] ++ chown_calls E cf
       ++ utime_calls cf time).

(** [os.rename] takes the work file to the spool path: both are on one
    file system and the host allows it. *)
Definition rename_permitted (E : env) (cf : CallFile) : Prop :=
  os_fault E (SysMove (work_path cf) (spool_path cf)) = None.

(** [os.rename] refuses with an [OSError]: the two paths are on different
    file systems, or the host does not allow it. *)
Definition rename_refused (E : env) (cf : CallFile) : Prop :=
  ∃ e, os_fault E (SysMove (work_path cf) (spool_path cf)) = Some e
       ∧ isinstance e OSError = true.

(** What [shutil.move] falls back on when [os.rename] is refused, in
    program order. *)
Definition fallback_calls (cf : CallFile) : list os_call :=
  [ SysCopyOpen (spool_path cf);
    SysCopyData (work_path cf) (spool_path cf);
    SysCopyStat (work_path cf) (spool_path cf);
    SysUnlink (work_path cf) ].

(** The exception of the first call of the list that the host fails. *)
Fixpoint first_os_fault (E : env) (calls : list os_call) : option exc :=
  match calls with
  | [] => None
  | c :: rest =>
      match os_fault E c with
      | Some e => Some e
      | None => first_os_fault E rest
      end
  end.

(** [host0] when [chown] is not allowed. *)
Definition host_denies_chown : env :=
  mkEnv (λ p, p)
        (λ u, if bool_decide (u = "asterisk") then Some (1001, 1001) else None)
        (λ c, match c with
              | SysChown _ _ _ => Some OSError
              | _ => None
              end)
        no_fault "/tmp/tmpk3v9x1.call" (λ _, 0%nat).

(** [host0] when the spool directory is not writable: neither the rename
    nor the creation of the copy is allowed. *)
Definition host_denies_move : env :=
  mkEnv (λ p, p)
        (λ u, if bool_decide (u = "asterisk") then Some (1001, 1001) else None)
        (λ c, match c with
              | SysMove _ _ | SysCopyOpen _ => Some OSError
              | _ => None
              end)
        no_fault "/tmp/tmpk3v9x1.call" (λ _, 0%nat).

(** [host0] when the spool directory is on another file system than the
    temporary directory. *)
Definition host_two_filesystems : env :=
  mkEnv (λ p, p)
        (λ u, if bool_decide (u = "asterisk") then Some (1001, 1001) else None)
        (λ c, match c with
              | SysMove _ _ => Some OSError
              | _ => None
              end)
        no_fault "/tmp/tmpk3v9x1.call" (λ _, 0%nat).

(** [host0] when the peer hangs up during negotiation. *)
Definition host_hangs_up : env :=
  mkEnv (λ p, p)
        (λ u, if bool_decide (u = "asterisk") then Some (1001, 1001) else None)
        no_fault
        (λ c, match c with
              | NetConnect _ _ _ => Some EOFError
              | _ => None
              end)
        "/tmp/tmpk3v9x1.call" (λ _, 0%nat).

(** [host0] when the name of the remote host does not resolve:
    [paramiko.Transport] lets the [socket.gaierror], an [OSError], through. *)
Definition host_unresolvable : env :=
  mkEnv (λ p, p)
        (λ u, if bool_decide (u = "asterisk") then Some (1001, 1001) else None)
        no_fault
        (λ c, match c with
              | NetTransport _ _ => Some OSError
              | _ => None
              end)
        "/tmp/tmpk3v9x1.call" (λ _, 0%nat).

(** [host0] when the private key file cannot be read. *)
Definition host_no_key : env :=
  mkEnv (λ p, p)
        (λ u, if bool_decide (u = "asterisk") then Some (1001, 1001) else None)
        no_fault
        (λ c, match c with
              | NetLoadKey _ => Some IOError
              | _ => None
              end)
        "/tmp/tmpk3v9x1.call" (λ _, 0%nat).


(** ** Symbolic execution *)

Arguments caught_by : simpl never.
Arguments isinstance : simpl never.
Arguments path_join : simpl never.
Arguments work_path : simpl never.
Arguments spool_path : simpl never.
Arguments String.concat : simpl never.
Arguments release : simpl never.
Arguments basename : simpl never.

Ltac unfold_monad :=
  unfold mbind, M_bind, mret, M_ret, raise, emit, modify, get_state, check_fault in *.

Ltac unfold_state :=
  unfold put_node, hold_handle, drop_handle, set_nodes, set_handles, set_remote,
    log_event in *.

Ltac unfold_paramiko :=
  unfold upload, Transport_new, Transport_connect, SFTPClient_from_transport,
    sftp_put, sftp_chown, sftp_rename, sftp_close, Transport_close,
    SSHClient_new, load_system_host_keys, set_missing_host_key_policy_AutoAdd,
    SSHClient_close, RSAKey_from_private_key_file in *.

Ltac destruct_match :=
  match goal with
  | |- context [match ?x with _ => _ end] =>
      lazymatch x with
      | context [match _ with _ => _ end] => fail
      | _ => destruct x eqn:?
      end
  end.

Create Rewrite HintDb callfile.

Ltac exec :=
  repeat first
    [ progress (unfold_monad; unfold_state; unfold try_except_raise; simpl)
    | rewrite lookup_insert_eq
    | progress autorewrite with callfile
    | destruct_match ].

(** ** The monad *)

Lemma bind_run {A B} (m : M A) (f : A → M B) s :
  (m ≫= f) s = match m s with
               | (Return a, s') => f a s'
               | (Raise e, s') => (Raise e, s')
               end.
Proof. reflexivity. Qed.

Lemma bind_return_inv {A B} (m : M A) (f : A → M B) s b s' :
  (m ≫= f) s = (Return b, s') →
  ∃ a s1, m s = (Return a, s1) ∧ f a s1 = (Return b, s').
Proof.
  rewrite bind_run. destruct (m s) as [[a|e] s1]; [eauto | discriminate].
Qed.

Lemma try_return_inv {A} (m : M A) classes e' s a s' :
  try_except_raise m classes e' s = (Return a, s') → m s = (Return a, s').
Proof.
  unfold try_except_raise. destruct (m s) as [[a0|e] s1]; [done|].
  destruct (caught_by classes e); discriminate.
Qed.

Lemma release_head h hs : release h (h :: hs) = hs.
Proof. unfold release. by rewrite bool_decide_true. Qed.

#[global] Hint Rewrite release_head : callfile.

(** ** Validation and rendering *)

(** [is_valid] computes the validity of the design document and touches
    nothing. *)
Lemma is_valid_run E cf s :
  is_valid E cf s = (Return (valid_descriptor E s cf), s).
Proof.
  unfold is_valid, valid_descriptor, spool_dir_ok, is_dir, isdir.
  destruct (call cf) as [c|]; simpl; [|reflexivity].
  destruct (action cf); simpl; try reflexivity;
  unfold_monad; destruct (str_truthy (spool_dir cf)); simpl;
  try destruct (bool_decide _); simpl; destruct (call_is_valid c); reflexivity.
Qed.

Lemma buildfile_run E cf s :
  buildfile E cf s =
  (if valid_descriptor E s cf then Return (directives cf) else Raise ValidationError, s).
Proof.
  unfold buildfile. rewrite bind_run, is_valid_run.
  unfold valid_descriptor, directives, archive_line.
  destruct (call cf) as [c|]; simpl; [|reflexivity].
  destruct (call_is_valid c); simpl; [|reflexivity].
  destruct (action cf); simpl; try reflexivity;
    destruct (spool_dir_ok E s cf); simpl; try reflexivity;
    destruct (archive_truthy (archive cf)); simpl;
    unfold mret, M_ret, mbind, M_bind; rewrite ?app_nil_r; try reflexivity;
    by rewrite <- app_assoc.
Qed.

Lemma contents_run E cf s :
  contents E cf s =
  (if valid_descriptor E s cf then Return (text cf) else Raise ValidationError, s).
Proof.
  unfold contents. rewrite bind_run, buildfile_run.
  destruct (valid_descriptor E s cf); reflexivity.
Qed.

Lemma or_default_truthy x : str_truthy (or_default x DEFAULT_SPOOL_DIR) = true.
Proof. destruct x as [[|c r]|]; reflexivity. Qed.

Lemma CallFile_init_spool_dir E c a ar fn td us sd s cf s' :
  CallFile_init E c a ar fn td us sd s = (Return cf, s') →
  spool_dir cf = or_default sd DEFAULT_SPOOL_DIR.
Proof.
  unfold CallFile_init, mkstemp, file_close.
  exec; try discriminate; by intros [= <- _].
Qed.

(** ** Materialisation *)

(** Opening the work file does not turn a path into a directory, nor a
    directory into something else. *)
Lemma is_dir_insert_file E s p q f :
  is_dir E s p = false →
  is_dir E (mkState (<[resolve E p := File f]> (nodes s)) (remote s)
              (HFile p :: handles s) (log s ++ [EvOs (SysOpen p)])) q
  = is_dir E s q.
Proof.
  unfold is_dir; simpl. intros Hp.
  destruct (decide (resolve E p = resolve E q)) as [Heq|Hne].
  - rewrite <- Heq, lookup_insert_eq, Hp. by rewrite bool_decide_false.
  - by rewrite lookup_insert_ne.
Qed.

(** Every way [writefile] can end. *)
Lemma writefile_cases E cf s :
  writefile E cf s =
  match os_fault E (SysOpen (work_path cf)) with
  | Some e => (Raise e, log_event (ev_open cf) s)
  | None =>
      if is_dir E s (work_path cf) then (Raise OSError, log_event (ev_open cf) s)
      else if valid_descriptor E s cf then
        match os_fault E (SysWrite (work_path cf)) with
        | Some e =>
            (Raise e, after_open E cf s EmptyString [ev_open cf; ev_write cf; ev_close cf])
        | None => (Return tt, materialized E cf s)
        end
      else (Raise ValidationError, after_open E cf s EmptyString [ev_open cf; ev_close cf])
  end.
Proof.
  unfold writefile, with_open_w, open_w, ev_open, ev_write, ev_close.
  unfold_monad. simpl.
  destruct (os_fault E (SysOpen (work_path cf))) as [e|]; [reflexivity|].
  unfold is_dir, materialized, after_open, kept_owner.
  destruct (nodes s !! resolve E (work_path cf)) as [[|f]|] eqn:Hn; simpl;
    rewrite Hn; simpl; [reflexivity| |].
  all: rewrite contents_run.
  all: unfold valid_descriptor, spool_dir_ok.
  all: unfold_state; simpl.
  all: rewrite is_dir_insert_file by (unfold is_dir; rewrite Hn; by rewrite bool_decide_false).
  all: destruct (call_ok (call cf) && action_ok (action cf) &&
        (negb (str_truthy (spool_dir cf)) || is_dir E s (abspath E (spool_dir cf)))); simpl.
  all: unfold file_write, ev_open, ev_write, ev_close; unfold_monad; simpl.
  all: try destruct (os_fault E (SysWrite (work_path cf))); simpl.
  all: rewrite ?lookup_insert_eq; simpl.
  all: unfold_state; simpl.
  all: rewrite ?release_head, ?insert_insert_eq, <- ?app_assoc; reflexivity.
Qed.

Lemma writefile_ok E cf s :
  valid_descriptor E s cf = true → write_permitted E s cf →
  writefile E cf s = (Return tt, materialized E cf s).
Proof.
  intros Hv (Ho & Hd & Hw). by rewrite writefile_cases, Ho, Hd, Hv, Hw.
Qed.

Lemma writefile_invalid E cf s :
  valid_descriptor E s cf = false →
  os_fault E (SysOpen (work_path cf)) = None →
  is_dir E s (work_path cf) = false →
  writefile E cf s
  = (Raise ValidationError, after_open E cf s EmptyString [ev_open cf; ev_close cf]).
Proof. intros Hv Ho Hd. by rewrite writefile_cases, Ho, Hd, Hv. Qed.

Lemma writefile_handles E cf s : handles (snd (writefile E cf s)) = handles s.
Proof.
  rewrite writefile_cases. unfold materialized, after_open.
  exec; reflexivity.
Qed.

(** ** The owner block *)

Lemma chown_to_user_ok E cf s uid gid :
  chown_permitted E cf →
  chown_to_user E cf uid gid (materialized E cf s)
  = (Return (local_ids E cf uid gid), staged E cf s).
Proof.
  unfold chown_to_user, local_ids, staged, staged_owner, chown_calls,
    materialized, after_open, getpwnam, chown.
  intros [Hu | (u & g & Hpw & Hch)]; unfold user_name in *.
  - rewrite Hu. unfold_monad. by rewrite app_nil_r.
  - rewrite Hpw. destruct (opt_truthy (user cf)); [|unfold_monad; by rewrite app_nil_r].
    unfold_monad; unfold try_except_raise; simpl. rewrite Hch. exec.
    rewrite insert_insert_eq, <- app_assoc. reflexivity.
Qed.

Lemma chown_to_user_handles E cf uid gid s :
  handles (snd (chown_to_user E cf uid gid s)) = handles s.
Proof.
  unfold chown_to_user, getpwnam, chown. exec; reflexivity.
Qed.

Lemma local_stage_ok E cf s uid gid :
  valid_descriptor E s cf = true → write_permitted E s cf → chown_permitted E cf →
  (writefile E cf ≫= λ _, chown_to_user E cf uid gid) s
  = (Return (local_ids E cf uid gid), staged E cf s).
Proof.
  intros Hv Hw Hc. rewrite bind_run, writefile_ok by done.
  by apply chown_to_user_ok.
Qed.

(** ** Local spooling *)



(** C4, amended.  For every valid descriptor with no owner set and no
    scheduled time supplied, whose [spool_dir/filename] names another
    object than [tempdir/filename] and is not an existing directory, after
    [spool()] returns successfully the file exists at [spool_dir/filename]
    with content equal to [contents], and no file remains at
    [tempdir/filename]. *)
Theorem spool_relocates E cf s s' :
  valid_descriptor E s cf = true →
  opt_truthy (user cf) = false →
  resolve E (spool_path cf) ≠ resolve E (work_path cf) →
  is_dir E s (spool_path cf) = false →
  spool E cf TimeNone s = (Return tt, s') →
  ∃ f c, contents E cf s = (Return c, s)
         ∧ nodes s' !! resolve E (spool_path cf) = Some (File f)
         ∧ f_data f = c
         ∧ nodes s' !! resolve E (work_path cf) = None.
Proof.
  intros Hv Hu Hne Hd H.
  cut (∃ f, nodes s' !! resolve E (spool_path cf) = Some (File f)
            ∧ f_data f = text cf
            ∧ nodes s' !! resolve E (work_path cf) = None).
  { intros (f & Hf & Hdata & Hgone). exists f, (text cf).
    by rewrite contents_run, Hv. }
  revert H. unfold spool. rewrite bind_run, writefile_cases, Hv.
  unfold chown_to_user. rewrite Hu.
  unfold move, copy2, copyfile, copystat, unlink, materialized, after_open, is_dir in *.
  exec; try discriminate.
  all: rewrite ?lookup_insert_ne in * by done.
  all: try congruence.
  all: try match goal with
           | H : _ && _ = true |- _ => rewrite Hd in H; simpl in H; discriminate
           end.
  all: intros [= <-]; simpl.
  all: eexists; split;
    [ rewrite ?lookup_delete_ne by done; rewrite ?lookup_insert_eq; reflexivity
    | split; [ reflexivity | ] ].
  all: rewrite ?lookup_insert_ne by done; by rewrite lookup_delete_eq.
Qed.

Lemma spool_relocates_witness :
  ∃ f c, contents host0 cf_plain disk0 = (Return c, disk0)
         ∧ nodes (snd (spool host0 cf_plain TimeNone disk0))
             !! resolve host0 (spool_path cf_plain) = Some (File f)
         ∧ f_data f = c
         ∧ nodes (snd (spool host0 cf_plain TimeNone disk0))
             !! resolve host0 (work_path cf_plain) = None.
Proof.
  apply (spool_relocates host0 cf_plain disk0).
  - vm_compute; reflexivity.
  - reflexivity.
  - vm_compute; discriminate.
  - vm_compute; reflexivity.
  - vm_compute; reflexivity.
Defined.

(** C4, as stated without the two provisos, fails in two ways.  When work
    directory and spool directory are the same directory the move renames
    the file onto itself: [spool] returns and the file is still at
    [tempdir/filename].  When [spool_dir/filename] is a directory the move
    puts the file inside it: [spool] returns and no file is at
    [spool_dir/filename]. *)
Lemma spool_relocates_counterexample :
  (valid_descriptor host0 disk0 cf_in_place = true
   ∧ opt_truthy (user cf_in_place) = false
   ∧ fst (spool host0 cf_in_place TimeNone disk0) = Return tt
   ∧ nodes (snd (spool host0 cf_in_place TimeNone disk0))
       !! resolve host0 (work_path cf_in_place)
     = Some (File (mkFile (text cf_in_place) None None)))
  ∧ (valid_descriptor host0 disk_taken cf_plain = true
     ∧ opt_truthy (user cf_plain) = false
     ∧ fst (spool host0 cf_plain TimeNone disk_taken) = Return tt
     ∧ nodes (snd (spool host0 cf_plain TimeNone disk_taken))
         !! resolve host0 (spool_path cf_plain)
       = Some Dir).
Proof. vm_compute. repeat split. Qed.




(** ** Remote spooling *)

(** [remote_spool] is the local stage followed by the two authentication
    branches, which see the [uid] and [gid] the owner block left. *)
Lemma remote_spool_unfold E cf ipaddr usr uid gid passwd pkeypath s :
  remote_spool E cf ipaddr usr uid gid passwd pkeypath s =
  match (writefile E cf ≫= λ _, chown_to_user E cf uid gid) s with
  | (Return ids, s1) =>
      ((if opt_truthy passwd then
          try_except_raise (
            SSHClient_new;;
            load_system_host_keys;;
            set_missing_host_key_policy_AutoAdd;;
            upload E cf ipaddr usr (ByPassword (default EmptyString passwd)) ids.1 ids.2;;
            SSHClient_close)
          [SSHException] ParamikoError
        else mret tt);;
       (if opt_truthy pkeypath then
          try_except_raise (
            pkey ← RSAKey_from_private_key_file E (default EmptyString pkeypath);
            SSHClient_new;;
            load_system_host_keys;;
            upload E cf ipaddr usr (ByKey pkey) ids.1 ids.2;;
            SSHClient_close)
          [SSHException; IOError] ParamikoError
        else mret tt)) s1
  | (Raise e, s1) => (Raise e, s1)
  end.
Proof.
  unfold remote_spool, mbind, M_bind.
  destruct (writefile E cf s) as [[[]|e] s1]; [|reflexivity].
  destruct (chown_to_user E cf uid gid s1) as [[ids|e] s2]; reflexivity.
Qed.

Lemma remote_spool_invalid E cf ipaddr usr uid gid passwd pkeypath s :
  valid_descriptor E s cf = false →
  os_fault E (SysOpen (work_path cf)) = None →
  is_dir E s (work_path cf) = false →
  fst (remote_spool E cf ipaddr usr uid gid passwd pkeypath s) = Raise ValidationError.
Proof.
  intros Hv Ho Hd. rewrite remote_spool_unfold, bind_run, writefile_invalid by done.
  reflexivity.
Qed.

(** When every call of the password branch goes through, the uploaded file
    ends in the remote spool directory, owned by what [uid] and [gid] are
    bound to after the owner block. *)
Lemma remote_spool_password_ok E cf ipaddr usr uid gid passwd s :
  valid_descriptor E s cf = true → write_permitted E s cf → chown_permitted E cf →
  remote_target_free cf ipaddr s →
  opt_truthy passwd = true →
  first_fault E (password_calls cf ipaddr usr (default EmptyString passwd)
                   (local_ids E cf uid gid)) = None →
  ∃ s', remote_spool E cf ipaddr usr uid gid passwd None s = (Return tt, s')
        ∧ remote s' !! (ipaddr, spool_path cf)
          = Some (mkFile (text cf) (Some (local_ids E cf uid gid)) None).
Proof.
  intros Hv Hw Hc [Hne Hfree] Hp Hff.
  rewrite remote_spool_unfold, local_stage_ok by done.
  rewrite Hp. revert Hff.
  unfold password_calls, staged. unfold_paramiko.
  simpl. exec.
  all: try discriminate.
  all: rewrite ?lookup_insert_eq in *; try discriminate.
  all: try (exfalso;
            match goal with
            | H : bool_decide (is_Some _) = true |- _ =>
                apply bool_decide_eq_true_1 in H;
                rewrite !lookup_insert_ne in H by congruence;
                rewrite Hfree in H; by destruct H
            end).
  intros _. eexists; split; [reflexivity|]. simpl.
  simplify_eq. rewrite lookup_insert_eq. by destruct (local_ids E cf uid gid).
Qed.

Lemma upload_returns_handles E cf ipaddr usr cred uid gid s s' :
  upload E cf ipaddr usr cred uid gid s = (Return tt, s') →
  handles s' = handles s.
Proof.
  unfold_paramiko.
  exec; try discriminate.
  all: intros [= <-]; simpl; by rewrite ?release_head.
Qed.

Lemma password_branch_handles E cf ipaddr usr passwd uid gid s s' :
  try_except_raise (
    SSHClient_new;;
    load_system_host_keys;;
    set_missing_host_key_policy_AutoAdd;;
    upload E cf ipaddr usr (ByPassword passwd) uid gid;;
    SSHClient_close) [SSHException] ParamikoError s = (Return tt, s') →
  handles s' = handles s.
Proof.
  intros H%try_return_inv.
  apply bind_return_inv in H as ([] & s1 & [= <-] & H).
  apply bind_return_inv in H as ([] & s1 & [= <-] & H).
  apply bind_return_inv in H as ([] & s1 & [= <-] & H).
  apply bind_return_inv in H as ([] & s1 & Hup & [= <-]).
  by apply upload_returns_handles in Hup.
Qed.

Lemma key_branch_handles E cf ipaddr usr pkeypath uid gid s s' :
  try_except_raise (
    pkey ← RSAKey_from_private_key_file E pkeypath;
    SSHClient_new;;
    load_system_host_keys;;
    upload E cf ipaddr usr (ByKey pkey) uid gid;;
    SSHClient_close) [SSHException; IOError] ParamikoError s = (Return tt, s') →
  handles s' = handles s.
Proof.
  intros H%try_return_inv.
  apply bind_return_inv in H as (pkey & s1 & Hkey & H).
  apply bind_return_inv in H as ([] & s2 & [= <-] & H).
  apply bind_return_inv in H as ([] & s2 & [= <-] & H).
  apply bind_return_inv in H as ([] & s2 & Hup & [= <-]).
  apply upload_returns_handles in Hup. rewrite Hup.
  revert Hkey. unfold RSAKey_from_private_key_file. exec; try discriminate.
  by intros [= <- <-].
Qed.

Lemma remote_spool_returns_handles E cf ipaddr usr uid gid passwd pkeypath s s' :
  remote_spool E cf ipaddr usr uid gid passwd pkeypath s = (Return tt, s') →
  handles s' = handles s.
Proof.
  rewrite remote_spool_unfold, bind_run.
  pose proof (writefile_handles E cf s) as Hw.
  destruct (writefile E cf s) as [[[]|e] s1]; simpl in *; [|discriminate].
  pose proof (chown_to_user_handles E cf uid gid s1) as Hc.
  destruct (chown_to_user E cf uid gid s1) as [[ids|e] s2]; simpl in *; [|discriminate].
  intros H. apply bind_return_inv in H as ([] & s3 & Hp & Hk).
  assert (handles s3 = handles s2) as H3.
  { destruct (opt_truthy passwd).
    - by apply password_branch_handles in Hp.
    - by injection Hp as <-. }
  assert (handles s' = handles s3) as H4.
  { destruct (opt_truthy pkeypath).
    - by apply key_branch_handles in Hk.
    - by injection Hk as <-. }
  congruence.
Qed.

(** ** The statements of the design document *)

(** C1. For every valid descriptor (the call is a [Call] whose [is_valid()]
    holds, the action is an [Action] or a [Context] instance, the spool
    directory exists), [buildfile()] returns exactly [call.render()]
    followed by [action.render()], with the single line "Archive: yes"
    appended if and only if [archive] is true; and [contents] is those
    lines joined with newline separators. *)
Theorem buildfile_contents_valid E s cf c la :
  call cf = CallObj c → call_is_valid c = true →
  action cf = ActionObj la ∨ action cf = ContextObj la →
  is_dir E s (abspath E (spool_dir cf)) = true →
  buildfile E cf s
  = (Return (call_render c ++ la
             ++ if archive_truthy (archive cf) then ["Archive: yes"] else [])%list, s)
  ∧ contents E cf s
    = (Return (String.concat NL
                 (call_render c ++ la
                  ++ if archive_truthy (archive cf) then ["Archive: yes"] else [])%list), s).
Proof.
  intros Hc Hcv Ha Hd.
  assert (valid_descriptor E s cf = true) as Hv.
  { unfold valid_descriptor, spool_dir_ok. rewrite Hc, Hd; simpl. rewrite Hcv.
    destruct Ha as [-> | ->]; simpl; by rewrite orb_true_r. }
  rewrite buildfile_run, contents_run, Hv.
  unfold text, directives, archive_line. rewrite Hc.
  by destruct Ha as [-> | ->].
Qed.

Lemma buildfile_contents_valid_witness :
  buildfile host0 cf_archived disk0
  = (Return ["Channel: SIP/5551234"; "Application: Playback"; "Data: hello-world";
             "Archive: yes"], disk0)
  ∧ contents host0 cf_archived disk0
    = (Return (String.concat NL
                 ["Channel: SIP/5551234"; "Application: Playback"; "Data: hello-world";
                  "Archive: yes"]), disk0).
Proof.
  apply (buildfile_contents_valid host0 disk0 cf_archived
           (mkCall true ["Channel: SIP/5551234"])
           ["Application: Playback"; "Data: hello-world"]).
  - reflexivity.
  - reflexivity.
  - left; reflexivity.
  - vm_compute; reflexivity.
Defined.

(** C2. For every invalid descriptor (the call is not a valid [Call], the
    action is not one of the two recognised variants, or the spool
    directory is not an existing directory), [buildfile()] and [contents]
    fail with [ValidationError]; they produce no directive lines and leave
    the world as it was: no call is issued, no file is written. *)
Theorem buildfile_contents_invalid E s cf :
  call_ok (call cf) = false
  ∨ action_ok (action cf) = false
  ∨ (str_truthy (spool_dir cf) = true
     ∧ is_dir E s (abspath E (spool_dir cf)) = false) →
  buildfile E cf s = (Raise ValidationError, s)
  ∧ contents E cf s = (Raise ValidationError, s).
Proof.
  intros H.
  assert (valid_descriptor E s cf = false) as Hv.
  { unfold valid_descriptor, spool_dir_ok.
    destruct H as [-> | [-> | [-> ->]]]; simpl; [done | | ].
    - by rewrite andb_false_r.
    - by rewrite andb_false_r. }
  by rewrite buildfile_run, contents_run, Hv.
Qed.

Lemma buildfile_contents_invalid_witness :
  buildfile host0 cf_bad_call disk0 = (Raise ValidationError, disk0)
  ∧ contents host0 cf_bad_call disk0 = (Raise ValidationError, disk0).
Proof.
  apply (buildfile_contents_invalid host0 disk0 cf_bad_call).
  left; reflexivity.
Defined.

(** C3 does not hold of [writefile]: the file is opened for writing, hence
    emptied, before [contents] is evaluated.  With a target that is not a
    [Call] and an older [/tmp/demo.call] holding "old", [writefile] raises
    [ValidationError] and leaves that file empty. *)
Theorem writefile_empties_before_validating :
  valid_descriptor host0 disk_old cf_bad_call = false
  ∧ nodes disk_old !! resolve host0 (work_path cf_bad_call)
    = Some (File (mkFile "old" None None))
  ∧ fst (writefile host0 cf_bad_call disk_old) = Raise ValidationError
  ∧ nodes (snd (writefile host0 cf_bad_call disk_old))
      !! resolve host0 (work_path cf_bad_call)
    = Some (File (mkFile EmptyString None None))
  ∧ log (snd (writefile host0 cf_bad_call disk_old))
    = [EvOs (SysOpen "/tmp/demo.call"); EvCloseFile "/tmp/demo.call"].
Proof. vm_compute. repeat split. Qed.

(** C6, amended.  For every remote dispatch with a password in which a call
    of the password branch fails, the local materialized file is still on
    disk with its contents, and [remote_spool] fails with [ParamikoError]
    exactly when what the call raised is an instance of
    [paramiko.SSHException] (the host refuses the connection,
    authentication is rejected, the protocol breaks); anything else is
    raised by [remote_spool] as it is. *)
Theorem remote_spool_password_fault E cf ipaddr usr uid gid passwd pkeypath s e :
  valid_descriptor E s cf = true → write_permitted E s cf → chown_permitted E cf →
  opt_truthy passwd = true →
  first_fault E (password_calls cf ipaddr usr (default EmptyString passwd)
                   (local_ids E cf uid gid)) = Some e →
  ∃ s', remote_spool E cf ipaddr usr uid gid passwd pkeypath s
        = (Raise (if isinstance e SSHException then ParamikoError else e), s')
        ∧ contents E cf s = (Return (text cf), s)
        ∧ nodes s' !! resolve E (work_path cf)
          = Some (File (mkFile (text cf) (staged_owner E cf s) None)).
Proof.
  intros Hv Hw Hc Hp Hff.
  assert (caught_by [SSHException] e = isinstance e SSHException) as He.
  { unfold caught_by. simpl. by rewrite orb_false_r. }
  rewrite remote_spool_unfold, local_stage_ok, contents_run, Hv by done.
  rewrite Hp. revert Hff.
  unfold password_calls, staged. unfold_paramiko.
  simpl. exec.
  all: try discriminate.
  all: rewrite ?lookup_insert_eq in *; try discriminate.
  all: intros [= ->].
  all: try congruence.
  all: eexists; (split; [reflexivity|]); simpl; by rewrite lookup_insert_eq.
Qed.

Lemma remote_spool_password_fault_witness :
  ∃ s', remote_spool host_unreachable cf_plain "10.0.0.5" "root" 0 0 (Some "secret") None disk0
        = (Raise ParamikoError, s')
        ∧ contents host_unreachable cf_plain disk0 = (Return (text cf_plain), disk0)
        ∧ nodes s' !! resolve host_unreachable (work_path cf_plain)
          = Some (File (mkFile (text cf_plain)
                          (staged_owner host_unreachable cf_plain disk0) None)).
Proof.
  apply (remote_spool_password_fault host_unreachable cf_plain "10.0.0.5" "root" 0 0
           (Some "secret") None disk0 SSHException).
  - vm_compute; reflexivity.
  - repeat split; vm_compute; reflexivity.
  - left; reflexivity.
  - reflexivity.
  - reflexivity.
Defined.

(** C6, as stated, fails for the failures of the transport layer that are
    not raised as [paramiko.SSHException].  When the peer hangs up during
    the negotiation, [t.connect] raises [EOFError]; when the name of the
    host does not resolve, [paramiko.Transport] raises [socket.gaierror].
    The password branch catches neither: [remote_spool] raises them as
    they are, not [ParamikoError]. *)
Lemma remote_spool_password_fault_counterexample :
  (valid_descriptor host_hangs_up disk0 cf_plain = true
   ∧ net_fault host_hangs_up (NetConnect "10.0.0.5" "root" (ByPassword "secret"))
     = Some EOFError
   ∧ fst (remote_spool host_hangs_up cf_plain "10.0.0.5" "root" 0 0 (Some "secret") None disk0)
     = Raise EOFError)
  ∧ (valid_descriptor host_unresolvable disk0 cf_plain = true
     ∧ net_fault host_unresolvable (NetTransport "pbx.example.org" 22) = Some OSError
     ∧ fst (remote_spool host_unresolvable cf_plain "pbx.example.org" "root" 0 0
              (Some "secret") None disk0)
       = Raise OSError).
Proof. vm_compute. repeat split. Qed.

(** C7 does not hold of [remote_spool] when an owner is set: the owner
    block rebinds the parameters [uid] and [gid] to the local account, and
    [sftp.chown] is called with those.  Called with uid 0 and gid 0 for a
    descriptor owned by [asterisk] (1001, 1001 locally), the remote file
    ends up owned by 1001, 1001. *)
Theorem remote_spool_chown_uses_local_ids :
  fst (remote_spool host0 cf_owned "10.0.0.5" "root" 0 0 (Some "secret") None disk0)
  = Return tt
  ∧ remote (snd (remote_spool host0 cf_owned "10.0.0.5" "root" 0 0 (Some "secret") None disk0))
      !! ("10.0.0.5", spool_path cf_owned)
    = Some (mkFile (text cf_owned) (Some (1001, 1001)) None)
  ∧ log (snd (remote_spool host0 cf_owned "10.0.0.5" "root" 0 0 (Some "secret") None disk0))
    = [ EvOs (SysOpen "/tmp/demo.call"); EvOs (SysWrite "/tmp/demo.call");
        EvCloseFile "/tmp/demo.call"; EvOs (SysChown "/tmp/demo.call" 1001 1001);
        EvNet (NetTransport "10.0.0.5" 22);
        EvNet (NetConnect "10.0.0.5" "root" (ByPassword "secret"));
        EvNet (NetSftp "10.0.0.5");
        EvNet (NetPut "10.0.0.5" "/tmp/demo.call" "/tmp/demo.call");
        EvNet (NetChown "10.0.0.5" "/tmp/demo.call" 1001 1001);
        EvNet (NetRename "10.0.0.5" "/tmp/demo.call" "/var/spool/asterisk/outgoing/demo.call");
        EvCloseSftp "10.0.0.5"; EvCloseTransport "10.0.0.5" ].
Proof. vm_compute. repeat split. Qed.

(** C8 does not hold of [remote_spool]: the closes are the last statements
    of each [try] body and nothing closes the session when a statement
    before them raises.  With [sftp.put] raising an [SSHException],
    [remote_spool] raises [ParamikoError] with the SFTP channel and the
    transport still open; no close was issued. *)
Lemma remote_spool_leaves_session_open :
  handles disk0 = []
  ∧ fst (remote_spool host_drops_upload cf_plain "10.0.0.5" "root" 0 0 (Some "secret") None disk0)
    = Raise ParamikoError
  ∧ handles (snd (remote_spool host_drops_upload cf_plain "10.0.0.5" "root" 0 0
                    (Some "secret") None disk0))
    = [HSftp "10.0.0.5"; HTransport "10.0.0.5"]
  ∧ log (snd (remote_spool host_drops_upload cf_plain "10.0.0.5" "root" 0 0
                (Some "secret") None disk0))
    = [ EvOs (SysOpen "/tmp/demo.call"); EvOs (SysWrite "/tmp/demo.call");
        EvCloseFile "/tmp/demo.call";
        EvNet (NetTransport "10.0.0.5" 22);
        EvNet (NetConnect "10.0.0.5" "root" (ByPassword "secret"));
        EvNet (NetSftp "10.0.0.5");
        EvNet (NetPut "10.0.0.5" "/tmp/demo.call" "/tmp/demo.call") ].
Proof. vm_compute. repeat split. Qed.

(** C9, as stated, fails: [is_valid] knows nothing of how the descriptor
    will be dispatched.  A descriptor with a valid call and action whose
    spool directory exists on the remote side only is invalid, and
    [remote_spool] on it raises [ValidationError]. *)
Lemma remote_only_spool_dir_is_invalid :
  call_ok (call cf_remote_only) = true
  ∧ action_ok (action cf_remote_only) = true
  ∧ is_dir host0 disk0 (abspath host0 (spool_dir cf_remote_only)) = false
  ∧ is_valid host0 cf_remote_only disk0 = (Return false, disk0)
  ∧ fst (remote_spool host0 cf_remote_only "10.0.0.5" "root" 0 0 (Some "secret") None disk0)
    = Raise ValidationError.
Proof. vm_compute. repeat split. Qed.

(** C9, amended.  [is_valid()] checks target validity and action variant
    membership for every descriptor, and checks that the spool directory
    is an existing local directory whenever [spool_dir] is not empty,
    whatever the dispatch; [__init__] never leaves [spool_dir] empty; and a
    spool directory missing locally makes [remote_spool] fail with
    [ValidationError]. *)
Theorem is_valid_checks_spool_dir_always :
  (∀ E cf s,
     is_valid E cf s
     = (Return (call_ok (call cf) && action_ok (action cf)
                && (negb (str_truthy (spool_dir cf))
                    || is_dir E s (abspath E (spool_dir cf)))), s))
  ∧ (∀ E c a ar fn td us sd s cf s',
       CallFile_init E c a ar fn td us sd s = (Return cf, s') →
       str_truthy (spool_dir cf) = true)
  ∧ (∀ E cf ipaddr usr uid gid passwd pkeypath s,
       str_truthy (spool_dir cf) = true →
       is_dir E s (abspath E (spool_dir cf)) = false →
       os_fault E (SysOpen (work_path cf)) = None →
       is_dir E s (work_path cf) = false →
       fst (remote_spool E cf ipaddr usr uid gid passwd pkeypath s)
       = Raise ValidationError).
Proof.
  split; [|split].
  - intros E cf s. apply is_valid_run.
  - intros E c a ar fn td us sd s cf s' H.
    apply CallFile_init_spool_dir in H as ->. apply or_default_truthy.
  - intros E cf ipaddr usr uid gid passwd pkeypath s Ht Hd Ho Hw.
    apply remote_spool_invalid; [|done..].
    unfold valid_descriptor, spool_dir_ok. rewrite Ht, Hd.
    by rewrite andb_false_r.
Qed.

Lemma is_valid_checks_spool_dir_always_witness :
  str_truthy (spool_dir
                (mkCallFile call0 action0 None None DEFAULT_SPOOL_DIR
                   "tmpk3v9x1.call" "/tmp")) = true
  ∧ fst (remote_spool host0 cf_remote_only "10.0.0.5" "root" 0 0 (Some "secret") None disk0)
    = Raise ValidationError.
Proof.
  split.
  - apply (proj1 (proj2 is_valid_checks_spool_dir_always)
             host0 call0 action0 None None None None None disk0 _
             (snd (CallFile_init host0 call0 action0 None None None None None disk0))).
    vm_compute; reflexivity.
  - apply (proj2 (proj2 is_valid_checks_spool_dir_always)); vm_compute; reflexivity.
Defined.

(** C10. For every valid descriptor, calling [remote_spool] with both
    [passwd] and [pkeypath] set to [None] raises no error and performs no
    remote operation at all: it only materializes the file locally (and
    applies the local [chown] when an owner is set), then returns with the
    file still at [tempdir/filename].  The work file is taken to be
    writable and the owner, if set, to exist and be permitted. *)
Theorem remote_spool_without_credentials E cf ipaddr usr uid gid s :
  valid_descriptor E s cf = true → write_permitted E s cf → chown_permitted E cf →
  ∃ s', remote_spool E cf ipaddr usr uid gid None None s = (Return tt, s')
        ∧ contents E cf s = (Return (text cf), s)
        ∧ nodes s' !! resolve E (work_path cf)
          = Some (File (mkFile (text cf) (staged_owner E cf s) None))
        ∧ remote s' = remote s
        ∧ handles s' = handles s
        ∧ log s' = (log s ++ [ev_open cf; ev_write cf; ev_close cf]
                    ++ chown_calls E cf)%list.
Proof.
  intros Hv Hw Hc. exists (staged E cf s).
  rewrite remote_spool_unfold, local_stage_ok, contents_run, Hv by done.
  repeat split. simpl. by rewrite lookup_insert_eq.
Qed.

Lemma remote_spool_without_credentials_witness :
  ∃ s', remote_spool host0 cf_owned "10.0.0.5" "root" 0 0 None None disk0 = (Return tt, s')
        ∧ contents host0 cf_owned disk0 = (Return (text cf_owned), disk0)
        ∧ nodes s' !! resolve host0 (work_path cf_owned)
          = Some (File (mkFile (text cf_owned) (staged_owner host0 cf_owned disk0) None))
        ∧ remote s' = remote disk0
        ∧ handles s' = handles disk0
        ∧ log s' = (log disk0 ++ [ev_open cf_owned; ev_write cf_owned; ev_close cf_owned]
                    ++ chown_calls host0 cf_owned)%list.
Proof.
  apply (remote_spool_without_credentials host0 cf_owned "10.0.0.5" "root" 0 0 disk0).
  - vm_compute; reflexivity.
  - repeat split; vm_compute; reflexivity.
  - right. exists 1001, 1001. split; reflexivity.
Defined.

(** ** Further properties of the class *)

(** *** Paths *)

Lemma has_slash_app_slash d b : has_slash (d +:+ String SLASH b) = true.
Proof.
  induction d as [|c d IH]; simpl.
  - done.
  - by rewrite IH, orb_true_r.
Qed.

Lemma basename_cons c r :
  basename (String c r)
  = if has_slash r then basename r
    else if bool_decide (c = SLASH) then r else String c r.
Proof. reflexivity. Qed.

Lemma basename_join d b :
  has_slash b = false → basename (d +:+ String SLASH b) = b.
Proof.
  intros Hb. induction d as [|c d IH].
  - change (EmptyString +:+ String SLASH b) with (String SLASH b).
    by rewrite basename_cons, Hb.
  - change (String c d +:+ String SLASH b) with (String c (d +:+ String SLASH b)).
    by rewrite basename_cons, has_slash_app_slash.
Qed.

Lemma upto_last_slash_join d b :
  has_slash b = false →
  upto_last_slash (d +:+ String SLASH b) = d +:+ String SLASH EmptyString.
Proof.
  intros Hb. induction d as [|c d IH]; simpl.
  - by rewrite Hb.
  - by rewrite has_slash_app_slash, IH.
Qed.

Lemma all_slashes_app_slash d :
  str_truthy d = true → ends_with_slash d = false →
  all_slashes (d +:+ String SLASH EmptyString) = false.
Proof.
  induction d as [|c d IH]; [done|]. intros _ He. simpl in *.
  destruct d as [|c' d'].
  - simpl. by rewrite He.
  - rewrite IH by done. by rewrite andb_false_r.
Qed.

Lemma rstrip_slashes_app_slash d :
  str_truthy d = true → ends_with_slash d = false →
  rstrip_slashes (d +:+ String SLASH EmptyString) = d.
Proof.
  induction d as [|c d IH]; [done|]. intros _ He. simpl in *.
  destruct d as [|c' d'].
  - simpl. by rewrite He.
  - rewrite all_slashes_app_slash by done. simpl. f_equal. by apply IH.
Qed.

(** [Path(d + '/' + b).parent] is [d] and [.name] is [b], and joining them
    gives the path back. *)
Lemma dirname_join d b :
  str_truthy d = true → ends_with_slash d = false → has_slash b = false →
  dirname (d +:+ String SLASH b) = d.
Proof.
  intros Hd He Hb. unfold dirname.
  rewrite upto_last_slash_join by done.
  rewrite all_slashes_app_slash by done.
  by apply rstrip_slashes_app_slash.
Qed.

Lemma starts_with_slash_no_slash b : has_slash b = false → starts_with_slash b = false.
Proof. destruct b; simpl; [done|]. by intros [? ?]%orb_false_iff. Qed.

Lemma path_join_plain d b :
  str_truthy d = true → ends_with_slash d = false → has_slash b = false →
  path_join d b = d +:+ String SLASH b.
Proof.
  intros Hd He Hb. unfold path_join.
  by rewrite starts_with_slash_no_slash, Hd, He.
Qed.

(** *** Construction *)

(** X1. Unless both [filename] and [tempdir] are given and not empty,
    [__init__] ignores whichever was given: it creates a fresh empty
    temporary file, closes it, and names the descriptor after it, so that
    [tempdir/filename] is exactly the path [mkstemp] returned. *)
Theorem init_uses_fresh_tempfile E c a ar fn td us sd s d b :
  opt_truthy fn && opt_truthy td = false →
  os_fault E SysMkstemp = None →
  mkstemp_pick E = d +:+ String SLASH b →
  str_truthy d = true → ends_with_slash d = false → has_slash b = false →
  ∃ cf s', CallFile_init E c a ar fn td us sd s = (Return cf, s')
           ∧ filename cf = b ∧ tempdir cf = d
           ∧ work_path cf = mkstemp_pick E
           ∧ nodes s' = <[resolve E (mkstemp_pick E) := File empty_file]> (nodes s)
           ∧ handles s' = handles s.
Proof.
  intros Hn Hf Hp Hd He Hb.
  unfold CallFile_init, mkstemp, file_close. rewrite Hn, Hf.
  unfold_monad; unfold_state; simpl. rewrite release_head.
  eexists _, _; split; [reflexivity|]; simpl.
  rewrite Hp, basename_join, dirname_join by done.
  unfold work_path; simpl. rewrite path_join_plain by done. done.
Qed.

Lemma init_uses_fresh_tempfile_witness :
  ∃ cf s', CallFile_init host0 call0 action0 None (Some "mine.call") None None None disk0
           = (Return cf, s')
           ∧ filename cf = "tmpk3v9x1.call" ∧ tempdir cf = "/tmp"
           ∧ work_path cf = mkstemp_pick host0
           ∧ nodes s' = <[resolve host0 (mkstemp_pick host0) := File empty_file]> (nodes disk0)
           ∧ handles s' = handles disk0.
Proof.
  apply (init_uses_fresh_tempfile host0 call0 action0 None (Some "mine.call") None None None
           disk0 "/tmp" "tmpk3v9x1.call"); reflexivity.
Defined.

(** *** Materialisation *)

Lemma is_dir_materialized E cf s q :
  is_dir E s (work_path cf) = false →
  is_dir E (materialized E cf s) q = is_dir E s q.
Proof.
  intros Hd. unfold is_dir, materialized, after_open in *; simpl.
  destruct (decide (resolve E (work_path cf) = resolve E q)) as [Heq|Hne].
  - rewrite <- Heq, lookup_insert_eq, Hd. by rewrite bool_decide_false.
  - by rewrite lookup_insert_ne.
Qed.

Lemma valid_descriptor_materialized E cf s :
  is_dir E s (work_path cf) = false →
  valid_descriptor E (materialized E cf s) cf = valid_descriptor E s cf.
Proof.
  intros Hd. unfold valid_descriptor, spool_dir_ok.
  by rewrite is_dir_materialized.
Qed.

Lemma writefile_elsewhere E cf s :
  same_elsewhere E cf s (snd (writefile E cf s)).
Proof.
  rewrite writefile_cases. unfold same_elsewhere, materialized, after_open.
  exec; try done.
  all: intros k Hk; by rewrite lookup_insert_ne.
Qed.

(** X2. For a valid descriptor whose work file may be written, [writefile]
    returns, and reading the file at [tempdir/filename] back gives exactly
    what [contents] evaluates to, before and after the write, whatever the
    file held; no other file is touched. *)
Theorem writefile_round_trip E cf s :
  valid_descriptor E s cf = true → write_permitted E s cf →
  ∃ s' f, writefile E cf s = (Return tt, s')
          ∧ nodes s' !! resolve E (work_path cf) = Some (File f)
          ∧ contents E cf s' = (Return (f_data f), s')
          ∧ contents E cf s = (Return (f_data f), s)
          ∧ same_elsewhere E cf s s'.
Proof.
  intros Hv Hw.
  exists (materialized E cf s), (mkFile (text cf) (kept_owner E s (work_path cf)) None).
  split; [by apply writefile_ok|].
  rewrite !contents_run, valid_descriptor_materialized, Hv by apply Hw.
  unfold same_elsewhere; simpl. split; [by rewrite lookup_insert_eq|].
  repeat split. intros k Hk. by rewrite lookup_insert_ne.
Qed.

Lemma writefile_round_trip_witness :
  ∃ s' f, writefile host0 cf_plain disk_old = (Return tt, s')
          ∧ nodes s' !! resolve host0 (work_path cf_plain) = Some (File f)
          ∧ contents host0 cf_plain s' = (Return (f_data f), s')
          ∧ contents host0 cf_plain disk_old = (Return (f_data f), disk_old)
          ∧ same_elsewhere host0 cf_plain disk_old s'.
Proof.
  apply (writefile_round_trip host0 cf_plain disk_old).
  - vm_compute; reflexivity.
  - repeat split; vm_compute; reflexivity.
Defined.

(** X3. Writing a valid descriptor twice leaves the same disk and the same
    open handles as writing it once: the second [writefile] replaces the
    file with itself. *)
Theorem writefile_twice E cf s :
  valid_descriptor E s cf = true → write_permitted E s cf →
  ∃ s1 s2, writefile E cf s = (Return tt, s1)
           ∧ (writefile E cf ;; writefile E cf) s = (Return tt, s2)
           ∧ nodes s2 = nodes s1
           ∧ handles s2 = handles s1.
Proof.
  intros Hv Hw. destruct Hw as (Ho & Hd & Hwr).
  exists (materialized E cf s), (materialized E cf (materialized E cf s)).
  split; [by apply writefile_ok|].
  rewrite bind_run, writefile_ok by done.
  rewrite writefile_ok.
  - split; [done|]. unfold materialized, after_open, kept_owner; simpl.
    by rewrite lookup_insert_eq, insert_insert_eq.
  - by rewrite valid_descriptor_materialized.
  - repeat split; try done. by rewrite is_dir_materialized.
Qed.

Lemma writefile_twice_witness :
  ∃ s1 s2, writefile host0 cf_plain disk0 = (Return tt, s1)
           ∧ (writefile host0 cf_plain ;; writefile host0 cf_plain) disk0 = (Return tt, s2)
           ∧ nodes s2 = nodes s1
           ∧ handles s2 = handles s1.
Proof.
  apply (writefile_twice host0 cf_plain disk0).
  - vm_compute; reflexivity.
  - repeat split; vm_compute; reflexivity.
Defined.

(** X4. On every exit path of [writefile], whether it returns or raises,
    the file handle has been released, no remote file and no local file
    other than [tempdir/filename] has changed; and [writefile] returns
    exactly when the descriptor is valid and the host lets the work file
    be opened and written. *)
Theorem writefile_frame E cf s :
  handles (snd (writefile E cf s)) = handles s
  ∧ remote (snd (writefile E cf s)) = remote s
  ∧ same_elsewhere E cf s (snd (writefile E cf s))
  ∧ (fst (writefile E cf s) = Return tt ↔
     valid_descriptor E s cf = true ∧ write_permitted E s cf).
Proof.
  rewrite writefile_cases. unfold write_permitted, same_elsewhere, materialized, after_open.
  exec; repeat split; try done.
  all: try (intros k Hk; by rewrite lookup_insert_ne).
  all: try (by intros (? & ? & ? & ?)).
  all: try (by intros (? & ?)).
Qed.

Lemma writefile_frame_witness :
  fst (writefile host0 cf_plain disk0) = Return tt.
Proof.
  apply (proj2 (proj2 (proj2 (proj2 (writefile_frame host0 cf_plain disk0))))).
  split; [|repeat split]; vm_compute; reflexivity.
Defined.

(** *** Local spooling *)

Lemma insert_file_not_dir (m : gmap string node) p q f :
  m !! q ≠ Some Dir → <[p := File f]> m !! q ≠ Some Dir.
Proof.
  intros H. destruct (decide (p = q)) as [->|Hne].
  - by rewrite lookup_insert_eq.
  - by rewrite lookup_insert_ne.
Qed.

(** Renaming within a file system: [move] puts the object at [dst]. *)
Lemma move_renames E src dst n s :
  nodes s !! resolve E dst ≠ Some Dir →
  nodes s !! resolve E src = Some n →
  os_fault E (SysMove src dst) = None →
  move E src dst s
  = (Return tt,
     mkState (<[resolve E dst := n]> (delete (resolve E src) (nodes s)))
       (remote s) (handles s) (log s ++ [EvOs (SysMove src dst)])).
Proof.
  intros Hd Hs Hf. unfold move. unfold_monad; unfold_state; simpl.
  rewrite bool_decide_false by done. simpl. by rewrite Hs, Hf.
Qed.

Lemma move_work_file E cf s f l :
  is_dir E s (spool_path cf) = false →
  os_fault E (SysMove (work_path cf) (spool_path cf)) = None →
  move E (work_path cf) (spool_path cf)
    (mkState (<[resolve E (work_path cf) := File f]> (nodes s)) (remote s) (handles s) l)
  = (Return tt,
     mkState (<[resolve E (spool_path cf) := File f]>
                (delete (resolve E (work_path cf)) (nodes s)))
       (remote s) (handles s) (l ++ [EvOs (SysMove (work_path cf) (spool_path cf))])).
Proof.
  intros Hd Hm. rewrite (move_renames E _ _ (File f)); simpl; try done.
  - by rewrite delete_insert_eq.
  - apply insert_file_not_dir. exact (bool_decide_eq_false_1 _ Hd).
  - by rewrite lookup_insert_eq.
Qed.

(** When [os.rename] is refused with an [OSError], a regular file is copied
    and unlinked instead. *)
Lemma move_falls_back E src dst f s e :
  nodes s !! resolve E dst ≠ Some Dir →
  nodes s !! resolve E src = Some (File f) →
  os_fault E (SysMove src dst) = Some e →
  isinstance e OSError = true →
  move E src dst s
  = (copy2 E src dst ;; unlink E src) (log_event (EvOs (SysMove src dst)) s).
Proof.
  intros Hd Hs Hf He. unfold move. unfold_monad; unfold_state; simpl.
  rewrite bool_decide_false by done. simpl. by rewrite Hs, Hf, He.
Qed.

(** A copy onto a path that is no directory goes to that path. *)
Lemma copy2_to_file E src dst s :
  nodes s !! resolve E dst ≠ Some Dir →
  copy2 E src dst s = (copyfile E src dst ;; copystat E src dst) s.
Proof.
  intros Hd. unfold copy2. rewrite bind_run. unfold get_state.
  by rewrite bool_decide_false.
Qed.

(** When the host permits the preparation, [spool] comes to the move with
    the work file prepared. *)
Lemma spool_prepared E cf time s :
  valid_descriptor E s cf = true → write_permitted E s cf → chown_permitted E cf →
  time_permitted E cf time →
  spool E cf time s
  = try_except_raise (move E (work_path cf) (spool_path cf)) [IOError]
      NoSpoolPermissionError (prepared E cf time s).
Proof.
  intros Hv Hw Hc Ht. unfold spool.
  rewrite bind_run, writefile_ok by done.
  rewrite bind_run, chown_to_user_ok by done.
  unfold prepared, staged, utime, mktime_timetuple.
  set (mv := try_except_raise (move E (work_path cf) (spool_path cf)) _ _).
  destruct Ht as [Ht | (t & -> & Hu)].
  - rewrite Ht.
    assert (stamped time = None ∧ utime_calls cf time = []) as [-> ->].
    { destruct time as [|[?|]|[|]]; try done. }
    rewrite bind_run. unfold mret, M_ret. by rewrite app_nil_r.
  - unfold_monad; unfold_state; unfold try_except_raise; simpl.
    rewrite Hu. simpl. rewrite lookup_insert_eq. simpl.
    by rewrite insert_insert_eq, <- !app_assoc.
Qed.

(** When the host permits every step and the rename goes through, [spool]
    runs to the end. *)
Lemma spool_returns E cf time s :
  valid_descriptor E s cf = true → write_permitted E s cf → chown_permitted E cf →
  time_permitted E cf time →
  os_fault E (SysMove (work_path cf) (spool_path cf)) = None →
  is_dir E s (spool_path cf) = false →
  spool E cf time s = (Return tt, spooled E cf time s).
Proof.
  intros Hv Hw Hc Ht Hm Hd.
  rewrite spool_prepared by done.
  unfold try_except_raise, prepared.
  rewrite move_work_file by done.
  unfold spooled, spool_schedule. by rewrite <- !app_assoc.
Qed.

(** X5. Within one file system: when the descriptor is valid and the host
    permits every step (the work file is writable, the owner if set exists
    and may be chowned to, the time if given converts and may be applied,
    [os.rename] takes the work file to [spool_dir/filename], which is not
    a directory), [spool] returns; the file at [spool_dir/filename] holds
    [contents] and belongs to the owner asked for; no other file but the
    work file has changed; no handle is left open; and the calls issued
    are open, write, close, then [chown] if an owner is set, [utime] if a
    time is given, and the move. *)
Theorem spool_succeeds E cf time s :
  valid_descriptor E s cf = true → write_permitted E s cf → chown_permitted E cf →
  time_permitted E cf time →
  rename_permitted E cf →
  is_dir E s (spool_path cf) = false →
  ∃ s' f, spool E cf time s = (Return tt, s')
          ∧ nodes s' !! resolve E (spool_path cf) = Some (File f)
          ∧ f_data f = text cf
          ∧ f_owner f = staged_owner E cf s
          ∧ (∀ k, k ≠ resolve E (spool_path cf) → k ≠ resolve E (work_path cf) →
                  nodes s' !! k = nodes s !! k)
          ∧ remote s' = remote s
          ∧ handles s' = handles s
          ∧ log s' = (log s ++ [ev_open cf; ev_write cf; ev_close cf]
                      ++ spool_schedule E cf time)%list.
Proof.
  intros Hv Hw Hc Ht Hm Hd.
  exists (spooled E cf time s), (mkFile (text cf) (staged_owner E cf s) (stamped time)).
  split; [by apply spool_returns|]. unfold spooled; simpl.
  split; [by rewrite lookup_insert_eq|]. do 2 (split; [done|]).
  split; [|done].
  intros k Hs Hk. by rewrite lookup_insert_ne, lookup_delete_ne.
Qed.

Lemma spool_succeeds_witness :
  ∃ s' f, spool host0 cf_owned (TimeDatetime (Some 1700000000)) disk0 = (Return tt, s')
          ∧ nodes s' !! resolve host0 (spool_path cf_owned) = Some (File f)
          ∧ f_data f = text cf_owned
          ∧ f_owner f = staged_owner host0 cf_owned disk0
          ∧ (∀ k, k ≠ resolve host0 (spool_path cf_owned) →
                  k ≠ resolve host0 (work_path cf_owned) →
                  nodes s' !! k = nodes disk0 !! k)
          ∧ remote s' = remote disk0
          ∧ handles s' = handles disk0
          ∧ log s' = (log disk0 ++ [ev_open cf_owned; ev_write cf_owned; ev_close cf_owned]
                      ++ spool_schedule host0 cf_owned (TimeDatetime (Some 1700000000)))%list.
Proof.
  apply (spool_succeeds host0 cf_owned (TimeDatetime (Some 1700000000)) disk0).
  - vm_compute; reflexivity.
  - repeat split; vm_compute; reflexivity.
  - right. exists 1001, 1001. split; reflexivity.
  - right. exists 1700000000. split; reflexivity.
  - reflexivity.
  - vm_compute; reflexivity.
Defined.



(** X7. When the time given is a true object that is no [datetime], or a
    [datetime] that [mktime] cannot convert, or [utime] fails with an
    error the [except] clause lists, [spool] fails with
    [InvalidTimeError]: the disk is as the owner block left it, with the
    file still at [tempdir/filename], and no move was issued. *)
Theorem spool_invalid_time E cf time s :
  valid_descriptor E s cf = true → write_permitted E s cf → chown_permitted E cf →
  time_refused E cf time →
  ∃ s', spool E cf time s = (Raise InvalidTimeError, s')
        ∧ nodes s' = nodes (staged E cf s)
        ∧ log s' = (log (staged E cf s) ++ utime_calls cf time)%list.
Proof.
  intros Hv Hw Hc Ht. unfold spool.
  rewrite bind_run, writefile_ok by done.
  rewrite bind_run, chown_to_user_ok by done.
  unfold utime, mktime_timetuple.
  destruct Ht as [-> | [-> | (t & e & -> & Hu & He)]]; simpl.
  - eexists; split; [reflexivity|]. by rewrite app_nil_r.
  - eexists; split; [reflexivity|]. by rewrite app_nil_r.
  - unfold_monad; unfold try_except_raise; simpl. rewrite Hu. simpl. rewrite He.
    eexists; split; [reflexivity|]. done.
Qed.

Lemma spool_invalid_time_witness :
  ∃ s', spool host0 cf_plain (TimeOther true) disk0 = (Raise InvalidTimeError, s')
        ∧ nodes s' = nodes (staged host0 cf_plain disk0)
        ∧ log s' = (log (staged host0 cf_plain disk0)
                    ++ utime_calls cf_plain (TimeOther true))%list.
Proof.
  apply (spool_invalid_time host0 cf_plain (TimeOther true) disk0).
  - vm_compute; reflexivity.
  - repeat split; vm_compute; reflexivity.
  - left; reflexivity.
  - left; reflexivity.
Defined.

(** X8. When the owner exists but [chown] fails with an [OSError], [spool]
    fails with [NoUserPermissionError]; the enclosing [except KeyError]
    does not turn it into [NoUserError].  The file stays at
    [tempdir/filename] and neither [utime] nor the move is issued. *)
Theorem spool_chown_denied E cf time s uid gid e :
  valid_descriptor E s cf = true → write_permitted E s cf →
  opt_truthy (user cf) = true →
  passwd_db E (user_name cf) = Some (uid, gid) →
  os_fault E (SysChown (work_path cf) uid gid) = Some e →
  isinstance e os_error = true →
  ∃ s', spool E cf time s = (Raise NoUserPermissionError, s')
        ∧ nodes s' = nodes (materialized E cf s)
        ∧ log s' = (log (materialized E cf s)
                    ++ [EvOs (SysChown (work_path cf) uid gid)])%list.
Proof.
  intros Hv Hw Hu Hpw Hch He. unfold spool.
  rewrite bind_run, writefile_ok by done.
  unfold chown_to_user, getpwnam, chown, user_name in *. rewrite Hu, Hpw.
  unfold_monad; unfold try_except_raise; simpl. rewrite Hch.
  unfold caught_by at 1. simpl. rewrite He. simpl.
  replace (caught_by [KeyError] NoUserPermissionError) with false by reflexivity.
  eexists; split; [reflexivity|]. done.
Qed.

Lemma spool_chown_denied_witness :
  ∃ s', spool host_denies_chown cf_owned TimeNone disk0 = (Raise NoUserPermissionError, s')
        ∧ nodes s' = nodes (materialized host_denies_chown cf_owned disk0)
        ∧ log s' = (log (materialized host_denies_chown cf_owned disk0)
                    ++ [EvOs (SysChown (work_path cf_owned) 1001 1001)])%list.
Proof.
  apply (spool_chown_denied host_denies_chown cf_owned TimeNone disk0 1001 1001 OSError).
  - vm_compute; reflexivity.
  - repeat split; vm_compute; reflexivity.
  - reflexivity.
  - reflexivity.
  - reflexivity.
  - reflexivity.
Defined.

(** X9. When [os.rename] is refused with an [OSError] and then one of the
    steps [shutil.move] falls back on (creating the copy, copying the
    bytes, copying the file status, unlinking the work file) fails with an
    [IOError], [spool] fails with [NoSpoolPermissionError] and nothing is
    rolled back: the file is still at [tempdir/filename], holding
    [contents] and carrying the owner asked for; apart from it and from
    [spool_dir/filename], where the copy may have been begun, no file has
    changed. *)
Theorem spool_move_denied E cf time s e :
  valid_descriptor E s cf = true → write_permitted E s cf → chown_permitted E cf →
  time_permitted E cf time →
  is_dir E s (spool_path cf) = false →
  resolve E (spool_path cf) ≠ resolve E (work_path cf) →
  rename_refused E cf →
  first_os_fault E (fallback_calls cf) = Some e →
  isinstance e IOError = true →
  ∃ s' f, spool E cf time s = (Raise NoSpoolPermissionError, s')
          ∧ nodes s' !! resolve E (work_path cf) = Some (File f)
          ∧ f_data f = text cf
          ∧ f_owner f = staged_owner E cf s
          ∧ (∀ k, k ≠ resolve E (spool_path cf) → k ≠ resolve E (work_path cf) →
                  nodes s' !! k = nodes s !! k).
Proof.
  intros Hv Hw Hc Ht Hd Hne (e1 & Hm & He1) Hff He.
  rewrite spool_prepared by done.
  unfold try_except_raise.
  rewrite (move_falls_back E _ _ (mkFile (text cf) (staged_owner E cf s) (stamped time)) _ e1);
    try done.
  2: { simpl. apply insert_file_not_dir. exact (bool_decide_eq_false_1 _ Hd). }
  2: { simpl. by rewrite lookup_insert_eq. }
  assert (caught_by [IOError] e = true) as Hc'.
  { unfold caught_by. simpl. by rewrite He. }
  rewrite bind_run, copy2_to_file.
  2: { simpl. apply insert_file_not_dir. exact (bool_decide_eq_false_1 _ Hd). }
  revert Hff. unfold fallback_calls, first_os_fault, copyfile, copystat, unlink, prepared.
  unfold_monad; unfold_state; simpl.
  rewrite lookup_insert_eq.
  rewrite bool_decide_false by done.
  rewrite lookup_insert_ne by done.
  unfold is_dir in Hd. apply bool_decide_eq_false_1 in Hd.
  intros Hff. exec; simplify_eq; try congruence.
  all: eexists _, _; split; [reflexivity|]; simpl.
  all: rewrite ?lookup_insert_ne by done; rewrite lookup_insert_eq.
  all: split; [reflexivity|]; split; [reflexivity|]; split; [reflexivity|].
  all: intros k Hk1 Hk2; by rewrite !lookup_insert_ne.
Qed.

Lemma spool_move_denied_witness :
  ∃ s' f, spool host_denies_move cf_owned (TimeDatetime (Some 1700000000)) disk0
          = (Raise NoSpoolPermissionError, s')
          ∧ nodes s' !! resolve host_denies_move (work_path cf_owned) = Some (File f)
          ∧ f_data f = text cf_owned
          ∧ f_owner f = staged_owner host_denies_move cf_owned disk0
          ∧ (∀ k, k ≠ resolve host_denies_move (spool_path cf_owned) →
                  k ≠ resolve host_denies_move (work_path cf_owned) →
                  nodes s' !! k = nodes disk0 !! k).
Proof.
  apply (spool_move_denied host_denies_move cf_owned (TimeDatetime (Some 1700000000))
           disk0 OSError).
  - vm_compute; reflexivity.
  - repeat split; vm_compute; reflexivity.
  - right. exists 1001, 1001. split; reflexivity.
  - right. exists 1700000000. split; reflexivity.
  - vm_compute; reflexivity.
  - vm_compute. discriminate.
  - exists OSError. split; reflexivity.
  - reflexivity.
  - reflexivity.
Defined.

(** X17. Across file systems: when [os.rename] is refused with an [OSError]
    and the host permits the steps [shutil.move] falls back on, [spool]
    returns and the work file is gone; the file at [spool_dir/filename]
    holds [contents], but it is a copy: it belongs to whom the file
    formerly at that path belonged, or to the process, whatever owner the
    work file was given. *)
Theorem spool_across_filesystems E cf time s :
  valid_descriptor E s cf = true → write_permitted E s cf → chown_permitted E cf →
  time_permitted E cf time →
  is_dir E s (spool_path cf) = false →
  resolve E (spool_path cf) ≠ resolve E (work_path cf) →
  rename_refused E cf →
  first_os_fault E (fallback_calls cf) = None →
  ∃ s' f, spool E cf time s = (Return tt, s')
          ∧ nodes s' !! resolve E (spool_path cf) = Some (File f)
          ∧ f_data f = text cf
          ∧ f_owner f = kept_owner E s (spool_path cf)
          ∧ nodes s' !! resolve E (work_path cf) = None
          ∧ (∀ k, k ≠ resolve E (spool_path cf) → k ≠ resolve E (work_path cf) →
                  nodes s' !! k = nodes s !! k).
Proof.
  intros Hv Hw Hc Ht Hd Hne (e1 & Hm & He1) Hff.
  rewrite spool_prepared by done.
  unfold try_except_raise.
  rewrite (move_falls_back E _ _ (mkFile (text cf) (staged_owner E cf s) (stamped time)) _ e1);
    try done.
  2: { simpl. apply insert_file_not_dir. exact (bool_decide_eq_false_1 _ Hd). }
  2: { simpl. by rewrite lookup_insert_eq. }
  rewrite bind_run, copy2_to_file.
  2: { simpl. apply insert_file_not_dir. exact (bool_decide_eq_false_1 _ Hd). }
  revert Hff. unfold fallback_calls, first_os_fault, copyfile, copystat, unlink, prepared, kept_owner.
  unfold_monad; unfold_state; simpl.
  rewrite lookup_insert_eq.
  rewrite bool_decide_false by done.
  rewrite lookup_insert_ne by done.
  unfold is_dir in Hd. apply bool_decide_eq_false_1 in Hd.
  intros Hff. exec; simplify_eq; try congruence.
  all: repeat match goal with
              | H : context [<[_:=_]> _ !! _] |- _ =>
                  first [ rewrite lookup_insert_eq in H
                        | rewrite lookup_insert_ne in H by done ]
              end.
  all: simplify_eq; try congruence.
  all: eexists _, _; split; [reflexivity|]; simpl.
  all: rewrite lookup_delete_ne by done; rewrite lookup_insert_eq.
  all: split; [reflexivity|]; split; [reflexivity|]; split; [reflexivity|].
  all: split; [by rewrite lookup_delete_eq|].
  all: intros k Hk1 Hk2; by rewrite lookup_delete_ne, !lookup_insert_ne.
Qed.

Lemma spool_across_filesystems_witness :
  ∃ s' f, spool host_two_filesystems cf_owned TimeNone disk0 = (Return tt, s')
          ∧ nodes s' !! resolve host_two_filesystems (spool_path cf_owned) = Some (File f)
          ∧ f_data f = text cf_owned
          ∧ f_owner f = kept_owner host_two_filesystems disk0 (spool_path cf_owned)
          ∧ nodes s' !! resolve host_two_filesystems (work_path cf_owned) = None
          ∧ (∀ k, k ≠ resolve host_two_filesystems (spool_path cf_owned) →
                  k ≠ resolve host_two_filesystems (work_path cf_owned) →
                  nodes s' !! k = nodes disk0 !! k).
Proof.
  apply (spool_across_filesystems host_two_filesystems cf_owned TimeNone disk0).
  - vm_compute; reflexivity.
  - repeat split; vm_compute; reflexivity.
  - right. exists 1001, 1001. split; reflexivity.
  - left; reflexivity.
  - vm_compute; reflexivity.
  - vm_compute. discriminate.
  - exists OSError. split; reflexivity.
  - reflexivity.
Defined.

(** *** Remote spooling *)

Lemma staged_work_file E cf s :
  nodes (staged E cf s) !! resolve E (work_path cf)
  = Some (File (mkFile (text cf) (staged_owner E cf s) None)).
Proof. unfold staged; simpl. by rewrite lookup_insert_eq. Qed.

(** An upload none of whose calls is failed, to a host where the spool
    path is free. *)
Lemma upload_ok E cf ipaddr usr cred ids s f :
  nodes s !! resolve E (work_path cf) = Some (File f) →
  remote_target_free cf ipaddr s →
  first_fault E (upload_calls cf ipaddr usr cred ids) = None →
  upload E cf ipaddr usr cred ids.1 ids.2 s
  = (Return tt,
     mkState (nodes s)
       (<[(ipaddr, spool_path cf) := mkFile (f_data f) (Some ids) None]>
          (delete (ipaddr, work_path cf) (remote s)))
       (handles s)
       (log s ++ map EvNet (upload_calls cf ipaddr usr cred ids) ++ closes ipaddr)).
Proof.
  intros Hf [Hne Hfree] Hff. revert Hff. unfold upload_calls, closes. unfold_paramiko.
  simpl. exec; try discriminate; try congruence.
  all: rewrite ?lookup_insert_eq in *; try discriminate.
  all: try (exfalso;
            match goal with
            | H : bool_decide (is_Some _) = true |- _ =>
                apply bool_decide_eq_true_1 in H;
                rewrite !lookup_insert_ne in H by congruence;
                rewrite Hfree in H; by destruct H
            end).
  intros _. simplify_eq.
  rewrite insert_insert_eq, delete_insert_eq, <- !app_assoc.
  by destruct ids.
Qed.

(** An upload none of whose calls is failed, to a host where something is
    at the spool path already: the rename is refused, the file stays where
    it was put and nothing is closed. *)
Lemma upload_refused E cf ipaddr usr cred ids s f :
  nodes s !! resolve E (work_path cf) = Some (File f) →
  spool_path cf ≠ work_path cf →
  is_Some (remote s !! (ipaddr, spool_path cf)) →
  first_fault E (upload_calls cf ipaddr usr cred ids) = None →
  upload E cf ipaddr usr cred ids.1 ids.2 s
  = (Raise IOError,
     mkState (nodes s)
       (<[(ipaddr, work_path cf) := mkFile (f_data f) (Some ids) None]> (remote s))
       (HSftp ipaddr :: HTransport ipaddr :: handles s)
       (log s ++ map EvNet (upload_calls cf ipaddr usr cred ids))).
Proof.
  intros Hf Hne Hthere Hff. revert Hff. unfold upload_calls. unfold_paramiko.
  simpl. exec; try discriminate; try congruence.
  all: rewrite ?lookup_insert_eq in *; try discriminate.
  all: try (exfalso;
            match goal with
            | H : bool_decide (is_Some _) = false |- _ =>
                apply bool_decide_eq_false_1 in H; apply H;
                by rewrite !lookup_insert_ne by congruence
            end).
  intros _. simplify_eq.
  rewrite insert_insert_eq, <- !app_assoc.
  by destruct ids.
Qed.

(** An upload one of whose calls is failed: it stops there, closes nothing
    and leaves the local disk alone. *)
Lemma upload_fault E cf ipaddr usr cred ids s f e :
  nodes s !! resolve E (work_path cf) = Some (File f) →
  first_fault E (upload_calls cf ipaddr usr cred ids) = Some e →
  ∃ r, upload E cf ipaddr usr cred ids.1 ids.2 s
       = (Raise e,
          mkState (nodes s) r (leaked E ipaddr usr cred ++ handles s)
            (log s ++ map EvNet (attempted E (upload_calls cf ipaddr usr cred ids)))).
Proof.
  intros Hf Hff. revert Hff. unfold upload_calls, leaked. unfold_paramiko.
  simpl. exec; try discriminate; try congruence.
  all: rewrite ?lookup_insert_eq in *; try discriminate.
  all: intros [= ->]; rewrite <- ?app_assoc; simpl; eexists; reflexivity.
Qed.

Lemma upload_nodes E cf ipaddr usr cred uid gid s :
  nodes (snd (upload E cf ipaddr usr cred uid gid s)) = nodes s.
Proof. unfold_paramiko. exec; reflexivity. Qed.

Lemma password_branch_run E cf ipaddr usr passwd uid gid s :
  try_except_raise (
    SSHClient_new;;
    load_system_host_keys;;
    set_missing_host_key_policy_AutoAdd;;
    upload E cf ipaddr usr (ByPassword passwd) uid gid;;
    SSHClient_close) [SSHException] ParamikoError s
  = match upload E cf ipaddr usr (ByPassword passwd) uid gid s with
    | (Return _, s') => (Return tt, s')
    | (Raise e, s') =>
        (if caught_by [SSHException] e then Raise ParamikoError else Raise e, s')
    end.
Proof.
  unfold try_except_raise, SSHClient_new, load_system_host_keys,
    set_missing_host_key_policy_AutoAdd, SSHClient_close, mbind, M_bind, mret, M_ret.
  destruct (upload E cf ipaddr usr (ByPassword passwd) uid gid s) as [[[]|e] s'];
    [reflexivity|]. by destruct (caught_by [SSHException] e).
Qed.

Lemma key_branch_run E cf ipaddr usr pkeypath uid gid s :
  try_except_raise (
    pkey ← RSAKey_from_private_key_file E pkeypath;
    SSHClient_new;;
    load_system_host_keys;;
    upload E cf ipaddr usr (ByKey pkey) uid gid;;
    SSHClient_close) [SSHException; IOError] ParamikoError s
  = match net_fault E (NetLoadKey pkeypath) with
    | Some e =>
        (if caught_by [SSHException; IOError] e then Raise ParamikoError else Raise e,
         log_event (EvNet (NetLoadKey pkeypath)) s)
    | None =>
        match upload E cf ipaddr usr (ByKey pkeypath) uid gid
                (log_event (EvNet (NetLoadKey pkeypath)) s) with
        | (Return _, s') => (Return tt, s')
        | (Raise e, s') =>
            (if caught_by [SSHException; IOError] e then Raise ParamikoError else Raise e, s')
        end
    end.
Proof.
  unfold try_except_raise, RSAKey_from_private_key_file, SSHClient_new,
    load_system_host_keys, SSHClient_close.
  unfold_monad. simpl.
  destruct (net_fault E (NetLoadKey pkeypath)) as [e|]; simpl.
  - by destruct (caught_by [SSHException; IOError] e).
  - destruct (upload E cf ipaddr usr (ByKey pkeypath) uid gid _) as [[[]|e] s'];
      [reflexivity|]. by destruct (caught_by [SSHException; IOError] e).
Qed.

Lemma password_branch_nodes E cf ipaddr usr passwd uid gid s :
  nodes (snd (try_except_raise (
    SSHClient_new;;
    load_system_host_keys;;
    set_missing_host_key_policy_AutoAdd;;
    upload E cf ipaddr usr (ByPassword passwd) uid gid;;
    SSHClient_close) [SSHException] ParamikoError s)) = nodes s.
Proof.
  rewrite password_branch_run.
  pose proof (upload_nodes E cf ipaddr usr (ByPassword passwd) uid gid s) as H.
  by destruct (upload E cf ipaddr usr (ByPassword passwd) uid gid s) as [[[]|e] s'].
Qed.

Lemma key_branch_nodes E cf ipaddr usr pkeypath uid gid s :
  nodes (snd (try_except_raise (
    pkey ← RSAKey_from_private_key_file E pkeypath;
    SSHClient_new;;
    load_system_host_keys;;
    upload E cf ipaddr usr (ByKey pkey) uid gid;;
    SSHClient_close) [SSHException; IOError] ParamikoError s)) = nodes s.
Proof.
  rewrite key_branch_run.
  destruct (net_fault E (NetLoadKey pkeypath)); [done|].
  pose proof (upload_nodes E cf ipaddr usr (ByKey pkeypath) uid gid
                (log_event (EvNet (NetLoadKey pkeypath)) s)) as H.
  by destruct (upload E cf ipaddr usr (ByKey pkeypath) uid gid _) as [[[]|e] s'].
Qed.

Lemma chown_to_user_raise E cf u g u' g' s e s' :
  chown_to_user E cf u g s = (Raise e, s') →
  chown_to_user E cf u' g' s = (Raise e, s').
Proof.
  unfold chown_to_user, getpwnam, chown.
  exec; try discriminate; done.
Qed.

Lemma chown_to_user_elsewhere E cf u g s k :
  k ≠ resolve E (work_path cf) →
  nodes (snd (chown_to_user E cf u g s)) !! k = nodes s !! k.
Proof.
  intros Hk. unfold chown_to_user, getpwnam, chown.
  exec; try done; by rewrite lookup_insert_ne.
Qed.

Lemma local_stage_log E cf u g s :
  ∃ l, log (snd ((writefile E cf ≫= λ _, chown_to_user E cf u g) s)) = (log s ++ l)%list
       ∧ forallb (λ ev, negb (is_net_event ev)) l = true.
Proof.
  rewrite bind_run, writefile_cases.
  unfold chown_to_user, getpwnam, chown, materialized, after_open, ev_open, ev_write, ev_close.
  exec.
  all: rewrite <- ?app_assoc; simpl.
  all: eexists; split; [reflexivity|]; reflexivity.
Qed.

(** X10. [spool] and [remote_spool] share their first stage: whenever
    writing the file or the owner block raises, both methods raise that
    same exception in that same state, whatever the other arguments, and
    [remote_spool] has issued no paramiko call. *)
Theorem local_stage_failure_shared E cf ipaddr usr uid gid passwd pkeypath time s e s1 :
  (writefile E cf ≫= λ _, chown_to_user E cf uid gid) s = (Raise e, s1) →
  remote_spool E cf ipaddr usr uid gid passwd pkeypath s = (Raise e, s1)
  ∧ spool E cf time s = (Raise e, s1)
  ∧ ∃ l, log s1 = (log s ++ l)%list
         ∧ forallb (λ ev, negb (is_net_event ev)) l = true.
Proof.
  intros H. split; [|split].
  - by rewrite remote_spool_unfold, H.
  - unfold spool. revert H. rewrite !bind_run.
    destruct (writefile E cf s) as [[[]|e0] s0]; cbn; [|by intros [= -> ->]].
    intros H. rewrite !bind_run.
    by rewrite (chown_to_user_raise _ _ _ _ 0 0 _ _ _ H).
  - pose proof (local_stage_log E cf uid gid s) as Hl. by rewrite H in Hl.
Qed.

Lemma local_stage_failure_shared_witness :
  remote_spool host0 cf_ghost "10.0.0.5" "root" 0 0 (Some "secret") None disk0
  = (Raise NoUserError, materialized host0 cf_ghost disk0)
  ∧ spool host0 cf_ghost TimeNone disk0 = (Raise NoUserError, materialized host0 cf_ghost disk0)
  ∧ ∃ l, log (materialized host0 cf_ghost disk0) = (log disk0 ++ l)%list
         ∧ forallb (λ ev, negb (is_net_event ev)) l = true.
Proof.
  apply (local_stage_failure_shared host0 cf_ghost "10.0.0.5" "root" 0 0 (Some "secret") None
           TimeNone disk0 NoUserError (materialized host0 cf_ghost disk0)).
  vm_compute; reflexivity.
Defined.

(** X11. With a password only, every paramiko call going through and
    nothing yet at the spool path of the remote host, [remote_spool]
    returns: on the remote host the file is at
    [spool_dir/filename] with the contents and the (uid, gid) left by the
    owner block, and no longer at [tempdir/filename]; the local copy is
    still at [tempdir/filename]; channel and transport are closed; and the
    calls after the local stage are transport, connect, SFTP, put, chown,
    rename and the two closes, in that order. *)
Theorem remote_spool_password_delivers E cf ipaddr usr uid gid passwd s :
  valid_descriptor E s cf = true → write_permitted E s cf → chown_permitted E cf →
  remote_target_free cf ipaddr s →
  opt_truthy passwd = true →
  first_fault E (password_calls cf ipaddr usr (default EmptyString passwd)
                   (local_ids E cf uid gid)) = None →
  ∃ s', remote_spool E cf ipaddr usr uid gid passwd None s = (Return tt, s')
        ∧ remote s' = delivered cf ipaddr (local_ids E cf uid gid) (remote s)
        ∧ nodes s' !! resolve E (work_path cf)
          = Some (File (mkFile (text cf) (staged_owner E cf s) None))
        ∧ handles s' = handles s
        ∧ log s' = (log (staged E cf s)
                    ++ map EvNet (password_calls cf ipaddr usr (default EmptyString passwd)
                                    (local_ids E cf uid gid))
                    ++ closes ipaddr)%list.
Proof.
  intros Hv Hw Hc Hfree Hp Hff.
  rewrite remote_spool_unfold, local_stage_ok by done.
  rewrite Hp, bind_run, password_branch_run.
  erewrite upload_ok; [| apply staged_work_file | exact Hfree | exact Hff].
  eexists; split; [reflexivity|]. simpl.
  by rewrite lookup_insert_eq.
Qed.

Lemma remote_spool_password_delivers_witness :
  ∃ s', remote_spool host0 cf_plain "10.0.0.5" "root" 0 0 (Some "secret") None disk0
        = (Return tt, s')
        ∧ remote s' = delivered cf_plain "10.0.0.5" (local_ids host0 cf_plain 0 0) (remote disk0)
        ∧ nodes s' !! resolve host0 (work_path cf_plain)
          = Some (File (mkFile (text cf_plain) (staged_owner host0 cf_plain disk0) None))
        ∧ handles s' = handles disk0
        ∧ log s' = (log (staged host0 cf_plain disk0)
                    ++ map EvNet (password_calls cf_plain "10.0.0.5" "root"
                                    (default EmptyString (Some "secret"))
                                    (local_ids host0 cf_plain 0 0))
                    ++ closes "10.0.0.5")%list.
Proof.
  apply (remote_spool_password_delivers host0 cf_plain "10.0.0.5" "root" 0 0
           (Some "secret") disk0).
  - vm_compute; reflexivity.
  - repeat split; vm_compute; reflexivity.
  - left; reflexivity.
  - split; [vm_compute; discriminate | vm_compute; reflexivity].
  - reflexivity.
  - reflexivity.
Defined.

(** X12. With a private key only, the key readable, every paramiko call
    going through and nothing yet at the spool path of the remote host,
    [remote_spool] returns with the same remote and local result as the
    password branch, the key being loaded first. *)
Theorem remote_spool_key_delivers E cf ipaddr usr uid gid pkeypath s :
  valid_descriptor E s cf = true → write_permitted E s cf → chown_permitted E cf →
  remote_target_free cf ipaddr s →
  opt_truthy pkeypath = true →
  first_fault E (key_calls cf ipaddr usr (default EmptyString pkeypath)
                   (local_ids E cf uid gid)) = None →
  ∃ s', remote_spool E cf ipaddr usr uid gid None pkeypath s = (Return tt, s')
        ∧ remote s' = delivered cf ipaddr (local_ids E cf uid gid) (remote s)
        ∧ nodes s' !! resolve E (work_path cf)
          = Some (File (mkFile (text cf) (staged_owner E cf s) None))
        ∧ handles s' = handles s
        ∧ log s' = (log (staged E cf s)
                    ++ map EvNet (key_calls cf ipaddr usr (default EmptyString pkeypath)
                                    (local_ids E cf uid gid))
                    ++ closes ipaddr)%list.
Proof.
  intros Hv Hw Hc Hfree Hp Hff.
  rewrite remote_spool_unfold, local_stage_ok by done.
  rewrite Hp. simpl opt_truthy. cbv iota. rewrite bind_run.
  change ((mret tt : M unit) (staged E cf s)) with (Return tt, staged E cf s).
  cbv iota beta. rewrite key_branch_run.
  revert Hff. unfold key_calls. simpl first_fault.
  destruct (net_fault E (NetLoadKey (default EmptyString pkeypath))) as [e|] eqn:Hk;
    [discriminate|]. intros Hff.
  erewrite upload_ok; [| apply staged_work_file | exact Hfree | exact Hff].
  eexists; split; [reflexivity|]. simpl.
  rewrite lookup_insert_eq, <- !app_assoc. done.
Qed.

Lemma remote_spool_key_delivers_witness :
  ∃ s', remote_spool host0 cf_owned "10.0.0.5" "root" 0 0 None (Some "/root/.ssh/id_rsa") disk0
        = (Return tt, s')
        ∧ remote s' = delivered cf_owned "10.0.0.5" (local_ids host0 cf_owned 0 0) (remote disk0)
        ∧ nodes s' !! resolve host0 (work_path cf_owned)
          = Some (File (mkFile (text cf_owned) (staged_owner host0 cf_owned disk0) None))
        ∧ handles s' = handles disk0
        ∧ log s' = (log (staged host0 cf_owned disk0)
                    ++ map EvNet (key_calls cf_owned "10.0.0.5" "root"
                                    (default EmptyString (Some "/root/.ssh/id_rsa"))
                                    (local_ids host0 cf_owned 0 0))
                    ++ closes "10.0.0.5")%list.
Proof.
  apply (remote_spool_key_delivers host0 cf_owned "10.0.0.5" "root" 0 0
           (Some "/root/.ssh/id_rsa") disk0).
  - vm_compute; reflexivity.
  - repeat split; vm_compute; reflexivity.
  - right. exists 1001, 1001. split; reflexivity.
  - split; [vm_compute; discriminate | vm_compute; reflexivity].
  - reflexivity.
  - reflexivity.
Defined.

(** X13. The password branch catches [paramiko.SSHException] only: when
    one of its calls raises anything else (an [EOFError], an [OSError]),
    [remote_spool] raises that exception itself, not [ParamikoError]; the
    calls stop at the failed one, nothing is closed and the key branch is
    not tried. *)
Theorem remote_spool_password_lets_through E cf ipaddr usr uid gid passwd pkeypath s e :
  valid_descriptor E s cf = true → write_permitted E s cf → chown_permitted E cf →
  opt_truthy passwd = true →
  first_fault E (password_calls cf ipaddr usr (default EmptyString passwd)
                   (local_ids E cf uid gid)) = Some e →
  isinstance e SSHException = false →
  ∃ s', remote_spool E cf ipaddr usr uid gid passwd pkeypath s = (Raise e, s')
        ∧ log s' = (log (staged E cf s)
                    ++ map EvNet (attempted E
                         (password_calls cf ipaddr usr (default EmptyString passwd)
                            (local_ids E cf uid gid))))%list.
Proof.
  intros Hv Hw Hc Hp Hff He.
  rewrite remote_spool_unfold, local_stage_ok by done.
  rewrite Hp, bind_run, password_branch_run.
  destruct (upload_fault E cf ipaddr usr (ByPassword (default EmptyString passwd))
              (local_ids E cf uid gid) (staged E cf s) _ e (staged_work_file E cf s) Hff)
    as [r ->].
  assert (caught_by [SSHException] e = false) as ->.
  { unfold caught_by. simpl. by rewrite He. }
  eexists; split; reflexivity.
Qed.

Lemma remote_spool_password_lets_through_witness :
  ∃ s', remote_spool host_hangs_up cf_plain "10.0.0.5" "root" 0 0 (Some "secret")
          (Some "/root/.ssh/id_rsa") disk0 = (Raise EOFError, s')
        ∧ log s' = (log (staged host_hangs_up cf_plain disk0)
                    ++ map EvNet (attempted host_hangs_up
                         (password_calls cf_plain "10.0.0.5" "root"
                            (default EmptyString (Some "secret"))
                            (local_ids host_hangs_up cf_plain 0 0))))%list.
Proof.
  apply (remote_spool_password_lets_through host_hangs_up cf_plain "10.0.0.5" "root" 0 0
           (Some "secret") (Some "/root/.ssh/id_rsa") disk0 EOFError).
  - vm_compute; reflexivity.
  - repeat split; vm_compute; reflexivity.
  - left; reflexivity.
  - reflexivity.
  - reflexivity.
  - reflexivity.
Defined.

(** X14. The key branch catches [paramiko.SSHException] and [IOError]:
    when loading the key or a later call raises an instance of either,
    [remote_spool] fails with [ParamikoError]; the local copy stays as the
    owner block left it, the calls stop at the failed one, and when it is
    the key that could not be loaded no connection was opened. *)
Theorem remote_spool_key_fault E cf ipaddr usr uid gid passwd pkeypath s e :
  valid_descriptor E s cf = true → write_permitted E s cf → chown_permitted E cf →
  opt_truthy passwd = false → opt_truthy pkeypath = true →
  first_fault E (key_calls cf ipaddr usr (default EmptyString pkeypath)
                   (local_ids E cf uid gid)) = Some e →
  isinstance e SSHException || isinstance e IOError = true →
  ∃ s', remote_spool E cf ipaddr usr uid gid passwd pkeypath s = (Raise ParamikoError, s')
        ∧ nodes s' = nodes (staged E cf s)
        ∧ log s' = (log (staged E cf s)
                    ++ map EvNet (attempted E
                         (key_calls cf ipaddr usr (default EmptyString pkeypath)
                            (local_ids E cf uid gid))))%list
        ∧ (is_Some (net_fault E (NetLoadKey (default EmptyString pkeypath))) →
           handles s' = handles s).
Proof.
  intros Hv Hw Hc Hp Hk Hff He.
  rewrite remote_spool_unfold, local_stage_ok by done.
  rewrite Hp, Hk, bind_run.
  change ((mret tt : M unit) (staged E cf s)) with (Return tt, staged E cf s).
  cbv iota beta. rewrite key_branch_run.
  assert (caught_by [SSHException; IOError] e = true) as Hc'.
  { unfold caught_by. simpl. by rewrite orb_false_r. }
  revert Hff. unfold key_calls. simpl first_fault. simpl attempted.
  destruct (net_fault E (NetLoadKey (default EmptyString pkeypath))) as [e0|] eqn:Hl.
  - intros [= ->]. rewrite Hc'. eexists; split; [reflexivity|]. done.
  - intros Hff.
    assert (nodes (log_event (EvNet (NetLoadKey (default EmptyString pkeypath)))
                     (staged E cf s)) !! resolve E (work_path cf)
            = Some (File (mkFile (text cf) (staged_owner E cf s) None))) as Hf
      by apply staged_work_file.
    destruct (upload_fault E cf ipaddr usr (ByKey (default EmptyString pkeypath))
                (local_ids E cf uid gid) _ _ e Hf Hff) as [r ->].
    rewrite Hc'. eexists; split; [reflexivity|]. simpl.
    rewrite <- !app_assoc. repeat split. by intros [? [=]].
Qed.

Lemma remote_spool_key_fault_witness :
  ∃ s', remote_spool host_no_key cf_plain "10.0.0.5" "root" 0 0 None
          (Some "/root/.ssh/id_rsa") disk0 = (Raise ParamikoError, s')
        ∧ nodes s' = nodes (staged host_no_key cf_plain disk0)
        ∧ log s' = (log (staged host_no_key cf_plain disk0)
                    ++ map EvNet (attempted host_no_key
                         (key_calls cf_plain "10.0.0.5" "root"
                            (default EmptyString (Some "/root/.ssh/id_rsa"))
                            (local_ids host_no_key cf_plain 0 0))))%list
        ∧ (is_Some (net_fault host_no_key
                      (NetLoadKey (default EmptyString (Some "/root/.ssh/id_rsa")))) →
           handles s' = handles disk0).
Proof.
  apply (remote_spool_key_fault host_no_key cf_plain "10.0.0.5" "root" 0 0 None
           (Some "/root/.ssh/id_rsa") disk0 IOError).
  - vm_compute; reflexivity.
  - repeat split; vm_compute; reflexivity.
  - left; reflexivity.
  - reflexivity.
  - reflexivity.
  - reflexivity.
  - reflexivity.
Defined.

(** X15. When both a password and a key path are given, no paramiko call
    fails on its own and nothing is yet at the spool path of the remote
    host, both branches run, one after the other: the password branch
    delivers the file and closes its session; the key branch uploads and
    chowns the file again, but its rename is refused, the spool path being
    taken by the first upload.  [remote_spool] fails with [ParamikoError]
    although the file was delivered; the second upload stays at
    [tempdir/filename] on the remote host and the second session is left
    open. *)
Theorem remote_spool_both_credentials E cf ipaddr usr uid gid passwd pkeypath s :
  valid_descriptor E s cf = true → write_permitted E s cf → chown_permitted E cf →
  remote_target_free cf ipaddr s →
  opt_truthy passwd = true → opt_truthy pkeypath = true →
  first_fault E (password_calls cf ipaddr usr (default EmptyString passwd)
                   (local_ids E cf uid gid)) = None →
  first_fault E (key_calls cf ipaddr usr (default EmptyString pkeypath)
                   (local_ids E cf uid gid)) = None →
  ∃ s', remote_spool E cf ipaddr usr uid gid passwd pkeypath s = (Raise ParamikoError, s')
        ∧ remote s' !! (ipaddr, spool_path cf)
          = Some (mkFile (text cf) (Some (local_ids E cf uid gid)) None)
        ∧ remote s' !! (ipaddr, work_path cf)
          = Some (mkFile (text cf) (Some (local_ids E cf uid gid)) None)
        ∧ handles s' = HSftp ipaddr :: HTransport ipaddr :: handles s
        ∧ log s' = (log (staged E cf s)
                    ++ (map EvNet (password_calls cf ipaddr usr (default EmptyString passwd)
                                     (local_ids E cf uid gid))
                        ++ closes ipaddr)
                    ++ map EvNet (key_calls cf ipaddr usr (default EmptyString pkeypath)
                                    (local_ids E cf uid gid)))%list.
Proof.
  intros Hv Hw Hc Hfree Hp Hk Hff1 Hff2.
  rewrite remote_spool_unfold, local_stage_ok by done.
  rewrite Hp, Hk, bind_run, password_branch_run.
  erewrite upload_ok; [| apply staged_work_file | exact Hfree | exact Hff1].
  rewrite key_branch_run.
  revert Hff2. unfold key_calls. simpl first_fault.
  destruct (net_fault E (NetLoadKey (default EmptyString pkeypath))) as [e|] eqn:Hl;
    [discriminate|]. intros Hff2.
  destruct Hfree as [Hne Hfree].
  erewrite upload_refused; [| apply staged_work_file | exact Hne | | exact Hff2].
  2: { simpl. by rewrite lookup_insert_eq. }
  replace (caught_by [SSHException; IOError] IOError) with true by reflexivity.
  eexists; split; [reflexivity|]. simpl.
  rewrite lookup_insert_eq, <- !app_assoc.
  rewrite lookup_insert_ne by congruence. rewrite lookup_insert_eq.
  done.
Qed.

Lemma remote_spool_both_credentials_witness :
  ∃ s', remote_spool host0 cf_plain "10.0.0.5" "root" 0 0 (Some "secret")
          (Some "/root/.ssh/id_rsa") disk0 = (Raise ParamikoError, s')
        ∧ remote s' !! ("10.0.0.5", spool_path cf_plain)
          = Some (mkFile (text cf_plain) (Some (local_ids host0 cf_plain 0 0)) None)
        ∧ remote s' !! ("10.0.0.5", work_path cf_plain)
          = Some (mkFile (text cf_plain) (Some (local_ids host0 cf_plain 0 0)) None)
        ∧ handles s' = HSftp "10.0.0.5" :: HTransport "10.0.0.5" :: handles disk0
        ∧ log s' = (log (staged host0 cf_plain disk0)
                    ++ (map EvNet (password_calls cf_plain "10.0.0.5" "root"
                                     (default EmptyString (Some "secret"))
                                     (local_ids host0 cf_plain 0 0))
                        ++ closes "10.0.0.5")
                    ++ map EvNet (key_calls cf_plain "10.0.0.5" "root"
                                    (default EmptyString (Some "/root/.ssh/id_rsa"))
                                    (local_ids host0 cf_plain 0 0)))%list.
Proof.
  apply (remote_spool_both_credentials host0 cf_plain "10.0.0.5" "root" 0 0 (Some "secret")
           (Some "/root/.ssh/id_rsa") disk0).
  - vm_compute; reflexivity.
  - repeat split; vm_compute; reflexivity.
  - left; reflexivity.
  - split; [vm_compute; discriminate | vm_compute; reflexivity].
  - reflexivity.
  - reflexivity.
  - reflexivity.
  - reflexivity.
Defined.

(** X18. Whenever [remote_spool] returns normally, whichever branches
    ran, every transport session and file-transfer channel it opened has
    been closed again: the open handles are those there were before the
    call. *)
Theorem remote_spool_closes_on_return E cf ipaddr usr uid gid passwd pkeypath s s' :
  remote_spool E cf ipaddr usr uid gid passwd pkeypath s = (Return tt, s') →
  handles s' = handles s.
Proof. apply remote_spool_returns_handles. Qed.

Lemma remote_spool_closes_on_return_witness :
  handles (snd (remote_spool host0 cf_plain "10.0.0.5" "root" 0 0 (Some "secret") None disk0))
  = handles disk0.
Proof.
  apply (remote_spool_closes_on_return host0 cf_plain "10.0.0.5" "root" 0 0
           (Some "secret") None disk0).
  vm_compute; reflexivity.
Defined.

(** X16. On every exit path of [remote_spool], whether it returns or
    raises, no local file other than [tempdir/filename] has changed:
    nothing is put into the local spool directory and nothing is cleaned
    up.  Once the local stage went through, the local copy is still at
    [tempdir/filename] with its contents however the remote part ends. *)
Theorem remote_spool_keeps_local_copy E cf ipaddr usr uid gid passwd pkeypath s :
  same_elsewhere E cf s (snd (remote_spool E cf ipaddr usr uid gid passwd pkeypath s))
  ∧ (valid_descriptor E s cf = true → write_permitted E s cf → chown_permitted E cf →
     nodes (snd (remote_spool E cf ipaddr usr uid gid passwd pkeypath s))
       !! resolve E (work_path cf)
     = Some (File (mkFile (text cf) (staged_owner E cf s) None))).
Proof.
  assert (∀ ids s1,
    nodes (snd (((if opt_truthy passwd then
          try_except_raise (
            SSHClient_new;;
            load_system_host_keys;;
            set_missing_host_key_policy_AutoAdd;;
            upload E cf ipaddr usr (ByPassword (default EmptyString passwd)) ids.1 ids.2;;
            SSHClient_close)
          [SSHException] ParamikoError
        else mret tt);;
       (if opt_truthy pkeypath then
          try_except_raise (
            pkey ← RSAKey_from_private_key_file E (default EmptyString pkeypath);
            SSHClient_new;;
            load_system_host_keys;;
            upload E cf ipaddr usr (ByKey pkey) ids.1 ids.2;;
            SSHClient_close)
          [SSHException; IOError] ParamikoError
        else mret tt)) s1)) = nodes s1) as Hbr.
  { intros ids s1. rewrite bind_run.
    destruct (opt_truthy passwd).
    - pose proof (password_branch_nodes E cf ipaddr usr (default EmptyString passwd)
                    ids.1 ids.2 s1) as H1.
      destruct (try_except_raise _ _ _ s1) as [[[]|e] s2]; simpl in *; [|done].
      destruct (opt_truthy pkeypath); [|done].
      by rewrite key_branch_nodes.
    - change ((mret tt : M unit) s1) with (Return tt, s1). cbv iota beta.
      destruct (opt_truthy pkeypath); [|done].
      by rewrite key_branch_nodes. }
  split.
  - rewrite remote_spool_unfold, bind_run.
    pose proof (writefile_elsewhere E cf s) as Hw.
    destruct (writefile E cf s) as [[[]|e] s1]; simpl in *; [|done].
    pose proof (chown_to_user_elsewhere E cf uid gid s1) as Hc.
    destruct (chown_to_user E cf uid gid s1) as [[ids|e] s2]; simpl in *.
    + intros k Hk. by rewrite Hbr, Hc, Hw.
    + intros k Hk. by rewrite Hc, Hw.
  - intros Hv Hw Hc.
    rewrite remote_spool_unfold, local_stage_ok by done.
    rewrite Hbr. apply staged_work_file.
Qed.

Lemma remote_spool_keeps_local_copy_witness :
  nodes (snd (remote_spool host_drops_upload cf_plain "10.0.0.5" "root" 0 0 (Some "secret")
                None disk0))
    !! resolve host_drops_upload (work_path cf_plain)
  = Some (File (mkFile (text cf_plain) (staged_owner host_drops_upload cf_plain disk0) None)).
Proof.
  apply (proj2 (remote_spool_keeps_local_copy host_drops_upload cf_plain "10.0.0.5" "root"
                  0 0 (Some "secret") None disk0)).
  - vm_compute; reflexivity.
  - repeat split; vm_compute; reflexivity.
  - left; reflexivity.
Defined.
